(** * pdfsmarteditor: the document session manager of [api/deps.py] and
    [api/storage.py]

    A shallow embedding of the session lifecycle (create, resolve, persist,
    delete, reap) over an explicit world: the file system, the [sessions]
    table of the SQLite store, the in-process [sessions] dictionary and the
    heap of [DocumentManager] objects.  Python exceptions are results of an
    error-and-state monad; the effects that happened before a [raise] stay in
    the world the monad returns.

    What the code cannot decide is left to the environment, and every
    statement below holds for every environment: the random bytes of
    [uuid4], the clock, whether the content area accepts the copied upload,
    how a PyMuPDF save ends, whether an [INSERT] into the store fails,
    whether the unlink of a stale content file by the reaper is refused
    (the one unlink whose failure the code catches and survives).
    A path holds a regular file or nothing; the other unlinks and the
    renames of a file that is there succeed, and so do the reads, deletes
    and updates of the store. Paths are POSIX paths. *)

From Stdlib Require Import ZArith Lia Ascii String.
From stdpp Require Import base option list gmap strings fin_maps.

Local Open Scope Z_scope.

(** ** Strings as Python uses them here *)

Module Str.

Definition chars (s : string) : list ascii := list_ascii_of_string s.

Definition sep : ascii := "/"%char.

(** [s.rfind(c)]: index of the last occurrence, [-1] when there is none. *)
Fixpoint rfind_from (c : ascii) (s : string) (i acc : Z) : Z :=
  match s with
  | EmptyString => acc
  | String a s' => rfind_from c s' (i + 1) (if Ascii.eqb a c then i else acc)
  end.

Definition rfind (c : ascii) (s : string) : Z := rfind_from c s 0 (-1).

(** [s[i:]] for [0 <= i]. *)
Fixpoint slice_from (s : string) (i : nat) : string :=
  match i, s with
  | O, _ => s
  | S _, EmptyString => EmptyString
  | S i', String _ s' => slice_from s' i'
  end.

(** A string is free of path separators. *)
Definition no_sep (s : string) : Prop := sep ∉ chars s.

Definition is_suffix (t s : string) : Prop := ∃ h, s = h +:+ t.

End Str.

(** [posixpath.basename]: [i = p.rfind('/') + 1; return p[i:]]. *)
Definition os_path_basename (p : string) : string :=
  let i := Str.rfind Str.sep p + 1 in
  Str.slice_from p (Z.to_nat i).

(** [deps.sanitize_filename]. *)
Definition sanitize_filename (filename : string) : string :=
  os_path_basename filename.

(** ** [str(uuid.uuid4())]

    [UUID(bytes=os.urandom(16), version=4)] forces the variant and version
    bits of the 128-bit integer; [__str__] prints it as ['%032x'] cut in
    groups of 8-4-4-4-12 digits. *)

Module Uuid.

Definition hexdigits : list ascii := Str.chars "0123456789abcdef".

Definition hexdigit (n : Z) : ascii :=
  nth (Z.to_nat (Z.land n 15)) hexdigits "0"%char.

Definition uuid4_int (random : Z) : Z :=
  let i := Z.land random (Z.ones 128) in
  let i := Z.land i (Z.lnot (Z.shiftl 49152 48)) in   (* int &= ~(0xc000 << 48) *)
  let i := Z.lor i (Z.shiftl 32768 48) in             (* int |= 0x8000 << 48 *)
  let i := Z.land i (Z.lnot (Z.shiftl 61440 64)) in   (* int &= ~(0xf000 << 64) *)
  Z.lor i (Z.shiftl 4 76).                            (* int |= version << 76 *)

(** ['%032x' % n], most significant digit first. *)
Definition hex32 (n : Z) : list ascii :=
  map (fun k : nat => hexdigit (Z.shiftr n (4 * (31 - Z.of_nat k)))) (seq 0 32).

Definition dash : ascii := "-"%char.

Definition str_chars (n : Z) : list ascii :=
  let h := hex32 n in
  take 8 h ++ dash :: take 4 (drop 8 h) ++ dash :: take 4 (drop 12 h)
    ++ dash :: take 4 (drop 16 h) ++ dash :: drop 20 h.

Definition str (n : Z) : string := string_of_list_ascii (str_chars n).

Definition uuid4_str (random : Z) : string := str (uuid4_int random).

End Uuid.

(** ** Data model *)

(** A PyMuPDF document, as far as the session manager looks at it: its
    sequence of pages ([len(doc)] is the page count). *)
Definition Page := nat.
Definition Document := list Page.

(** What a path of the file system holds: a file PyMuPDF can open, or bytes
    it refuses. *)
Inductive FileData :=
| PdfData (d : Document)
| RawData (bytes : list Z).

(** [storage.SessionRecord]. Timestamps are microseconds on the clock of
    [datetime.now()]; [isoformat]/[fromisoformat] keep them as they are. *)
Module SessionRecord.
Record t := mk {
  session_id : string;
  filename : string;
  storage_path : string;
  created_at : Z;
  last_modified : Z
}.
End SessionRecord.

(** A row of the table [sessions]: the columns besides the primary key
    [session_id]. *)
Module Row.
Record t := mk {
  filename : string;
  storage_path : string;
  created_at : Z;
  last_modified : Z
}.

Definition of_record (r : SessionRecord.t) : t :=
  mk (SessionRecord.filename r) (SessionRecord.storage_path r)
     (SessionRecord.created_at r) (SessionRecord.last_modified r).

Definition to_record (session_id : string) (r : t) : SessionRecord.t :=
  SessionRecord.mk session_id (filename r) (storage_path r)
                   (created_at r) (last_modified r).

Definition set_last_modified (ts : Z) (r : t) : t :=
  mk (filename r) (storage_path r) (created_at r) ts.
End Row.

(** The editing helpers hold the document of a [DocumentManager]; [nat] is
    the reference to that manager object. *)
Inductive Editor := mkEditor (document : nat).
Inductive PageManipulator := mkPageManipulator (document : nat).
Inductive MetadataEditor := mkMetadataEditor (document : nat).

(** The dictionary [build_session_data] returns. *)
Module Session.
Record t := mk {
  id : string;
  filename : string;
  storage_path : string;
  document_manager : nat;
  created_at : Z;
  last_modified : Z;
  page_count : nat;
  editor : option Editor;
  page_manipulator : option PageManipulator;
  metadata_editor : option MetadataEditor
}.

Definition set_last_modified (ts : Z) (s : t) : t :=
  mk (id s) (filename s) (storage_path s) (document_manager s) (created_at s)
     ts (page_count s) (editor s) (page_manipulator s) (metadata_editor s).

Definition set_page_count (n : nat) (s : t) : t :=
  mk (id s) (filename s) (storage_path s) (document_manager s) (created_at s)
     (last_modified s) n (editor s) (page_manipulator s) (metadata_editor s).
End Session.

(** Python exceptions the lifecycle code raises or lets through. *)
Inductive Exn :=
| HTTPException (status_code : Z) (detail : string)
| PDFLoadError (path : string)
| PDFSaveError (path : string)
| InvalidOperationError (msg : string)
| FileNotFoundError (path : string)
| SameFileError (path : string)
| OSError (path : string)
| sqlite3_Error (session_id : string)
| TypeError
| KeyError (key : string).

(** How [fitz]'s [Document.save] ends: the file is written, or the call
    raises and may leave a file behind at the target path. *)
Inductive SaveOutcome :=
| Saved
| SaveFailed (leftover : option FileData).

(** The environment the process runs in: configuration read at import time
    and the behaviour of the outside world the code cannot decide. *)
Record Env := mkEnv {
  STORAGE_DIR : string;
  SESSION_TTL_HOURS : Z;
  (** [os.urandom(16)] of the n-th draw, as an integer *)
  urandom : nat → Z;
  (** the content area refuses to create this file (name too long for the
      file system, no space left, no permission) *)
  copy_refused : string → bool;
  (** outcome of saving this document to this path *)
  save_outcome : Document → string → SaveOutcome;
  (** [INSERT OR REPLACE] of this session id fails with a storage error *)
  insert_fails : string → bool;
  (** the reaper's unlink of this file is refused (no permission on the
      directory, a read-only or busy file) *)
  unlink_refused : string → bool
}.

(** Effects on the outside world, in the order they happened. *)
Inductive Event :=
| EvCopy (src dst : string)
| EvOpen (path : string) (manager : nat)
| EvSave (manager : nat) (path : string)
| EvSaveFailed (manager : nat) (path : string)
| EvReplace (src dst : string)
| EvRemove (path : string)
| EvClose (manager : nat)
| EvStoreSave (session_id : string)
| EvStoreDelete (session_id : string)
| EvStoreUpdate (session_id : string) (ts : Z)
| EvLogWarning (path : string)
| EvLogInfo (removed : Z).

Record World := mkWorld {
  env : Env;
  (** regular files, by path *)
  fs : gmap string FileData;
  (** table [sessions] of [sessions.db], by primary key *)
  db : gmap string Row.t;
  (** the module-level dictionary [deps.sessions] *)
  sessions : gmap string Session.t;
  (** the [document] attribute of every [DocumentManager] object created so
      far; [None] is no document loaded (or closed) *)
  managers : list (option Document);
  (** what [datetime.now()] returns *)
  clock : Z;
  (** number of [os.urandom] draws so far *)
  draws : nat;
  trace : list Event
}.

Definition set_fs (f : gmap string FileData → gmap string FileData) (w : World) : World :=
  mkWorld (env w) (f (fs w)) (db w) (sessions w) (managers w) (clock w) (draws w) (trace w).
Definition set_db (f : gmap string Row.t → gmap string Row.t) (w : World) : World :=
  mkWorld (env w) (fs w) (f (db w)) (sessions w) (managers w) (clock w) (draws w) (trace w).
Definition set_sessions (f : gmap string Session.t → gmap string Session.t) (w : World) : World :=
  mkWorld (env w) (fs w) (db w) (f (sessions w)) (managers w) (clock w) (draws w) (trace w).
Definition set_managers (f : list (option Document) → list (option Document)) (w : World) : World :=
  mkWorld (env w) (fs w) (db w) (sessions w) (f (managers w)) (clock w) (draws w) (trace w).
Definition set_draws (f : nat → nat) (w : World) : World :=
  mkWorld (env w) (fs w) (db w) (sessions w) (managers w) (clock w) (f (draws w)) (trace w).
Definition emit (e : Event) (w : World) : World :=
  mkWorld (env w) (fs w) (db w) (sessions w) (managers w) (clock w) (draws w) (trace w ++ [e]).

(** ** The monad of Python statements *)

Inductive Result (A : Type) :=
| Ok (a : A)
| Raise (e : Exn).
Arguments Ok {A} a.
Arguments Raise {A} e.

Definition M (A : Type) : Type := World → Result A * World.

Definition ret {A} (a : A) : M A := λ w, (Ok a, w).

Definition raise {A} (e : Exn) : M A := λ w, (Raise e, w).

Definition bind {A B} (c : M A) (k : A → M B) : M B :=
  λ w, match c w with
       | (Ok a, w') => k a w'
       | (Raise e, w') => (Raise e, w')
       end.

Declare Scope py_scope.
Delimit Scope py_scope with py.
Notation "'let*' x ':=' c 'in' k" := (bind c (λ x, k))
  (at level 10, x pattern, c at level 100, k at level 200) : py_scope.
Notation "c ';;;' k" := (bind c (λ _, k))
  (at level 100, k at level 200, right associativity) : py_scope.
Local Open Scope py_scope.

Definition gets {A} (f : World → A) : M A := λ w, (Ok (f w), w).

Definition modify (f : World → World) : M unit := λ w, (Ok tt, f w).

(** [try: c  except Exception as e: h e] *)
Definition try_except {A} (c : M A) (h : Exn → M A) : M A :=
  λ w, match c w with
       | (Ok a, w') => (Ok a, w')
       | (Raise e, w') => h e w'
       end.

(** [try: c  finally: f]; an exception of [f] replaces the outcome of [c]. *)
Definition try_finally {A} (c : M A) (f : M unit) : M A :=
  λ w, let '(r, w1) := c w in
       match f w1 with
       | (Ok _, w2) => (r, w2)
       | (Raise e, w2) => (Raise e, w2)
       end.

(** [if b: c] *)
Definition when (b : bool) (c : M unit) : M unit := if b then c else ret tt.

(** [for x in xs: acc = body acc x] *)
Fixpoint for_each {A B} (xs : list A) (acc : B) (body : B → A → M B) : M B :=
  match xs with
  | [] => ret acc
  | x :: xs' => let* acc' := body acc x in for_each xs' acc' body
  end.

(** ** The outside world: files, clock, randomness, logging *)

Definition os_path_exists (path : string) : M bool :=
  gets (λ w, bool_decide (is_Some (fs w !! path))).

(** [os.remove]: unlinks a regular file; a missing one is an error. *)
Definition os_remove (path : string) : M unit :=
  λ w, match fs w !! path with
       | Some _ => (Ok tt, emit (EvRemove path) (set_fs (base.delete path) w))
       | None => (Raise (FileNotFoundError path), w)
       end.

(** [os.remove] inside the reaper's [try]: the unlink of a file that is
    there may be refused by the environment. *)
Definition os_remove_refusable (path : string) : M unit :=
  λ w, match fs w !! path with
       | Some _ =>
           if unlink_refused (env w) path then (Raise (OSError path), w)
           else (Ok tt, emit (EvRemove path) (set_fs (base.delete path) w))
       | None => (Raise (FileNotFoundError path), w)
       end.

(** [os.replace]: atomic rename of [src] over [dst]. *)
Definition os_replace (src dst : string) : M unit :=
  λ w, match fs w !! src with
       | Some data =>
           (Ok tt, emit (EvReplace src dst)
                     (set_fs (λ f, <[dst := data]> (base.delete src f)) w))
       | None => (Raise (FileNotFoundError src), w)
       end.

(** [shutil.copy(src, dst)] with [dst] a file path: the source must exist
    and differ from the destination, and the content area must accept the
    new file. *)
Definition shutil_copy (src dst : string) : M unit :=
  λ w, match fs w !! src with
       | None => (Raise (FileNotFoundError src), w)
       | Some data =>
           if bool_decide (src = dst) then (Raise (SameFileError src), w)
           else if copy_refused (env w) dst then (Raise (OSError dst), w)
           else (Ok tt, emit (EvCopy src dst) (set_fs <[dst := data]> w))
       end.

Definition datetime_now : M Z := gets clock.

(** [timedelta(hours=h)] in microseconds. *)
Definition timedelta_hours (h : Z) : Z := h * 3600 * 1000000.

(** [str(uuid.uuid4())] *)
Definition uuid4 : M string :=
  λ w, (Ok (Uuid.uuid4_str (urandom (env w) (draws w))), set_draws S w).

Definition logger_warning (path : string) : M unit := modify (emit (EvLogWarning path)).
Definition logger_info (removed : Z) : M unit := modify (emit (EvLogInfo removed)).

(** ** [pdfsmarteditor.core.document_manager.DocumentManager] *)

Module DocumentManager.

(** The [document] attribute of the manager object behind a reference. *)
Definition document (w : World) (self : nat) : option Document :=
  default None (managers w !! self).

(** [DocumentManager()]: a new object with [document = None]. *)
Definition new : M nat :=
  λ w, (Ok (length (managers w)), set_managers (λ l, l ++ [None]) w).

(** [load_pdf]: every failure of [fitz.open] becomes [PDFLoadError]. *)
Definition load_pdf (self : nat) (path : string) : M unit :=
  λ w, match fs w !! path with
       | Some (PdfData d) =>
           (Ok tt, emit (EvOpen path self) (set_managers <[self := Some d]> w))
       | _ => (Raise (PDFLoadError path), w)
       end.

(** [save_pdf]: every failure of [document.save] becomes [PDFSaveError]. *)
Definition save_pdf (self : nat) (path : string) : M unit :=
  λ w, match document w self with
       | None => (Raise (InvalidOperationError "No document is currently loaded."), w)
       | Some d =>
           match save_outcome (env w) d path with
           | Saved => (Ok tt, emit (EvSave self path) (set_fs <[path := PdfData d]> w))
           | SaveFailed leftover =>
               (Raise (PDFSaveError path),
                emit (EvSaveFailed self path)
                  (set_fs (λ f, match leftover with
                                | Some data => <[path := data]> f
                                | None => f
                                end) w))
           end
       end.

Definition get_document (self : nat) : M (option Document) :=
  gets (λ w, document w self).

(** Python's truth value of a PyMuPDF document: the class defines
    [__len__] (the page count) and no [__bool__], so a document without
    pages is falsy. *)
Definition truthy (d : Document) : bool := negb (Nat.eqb (length d) 0).

(** [close_document]: [if self.document: self.document.close();
    self.document = None]. *)
Definition close_document (self : nat) : M unit :=
  λ w, match document w self with
       | Some d =>
           if truthy d
           then (Ok tt, emit (EvClose self) (set_managers <[self := None]> w))
           else (Ok tt, w)
       | None => (Ok tt, w)
       end.

End DocumentManager.

(** [len(doc)] on what [get_document] returned. *)
Definition len (doc : option Document) : M nat :=
  match doc with
  | Some d => ret (length d)
  | None => raise TypeError
  end.

(** ** [api.storage.SessionStore], the instance [session_store] *)

Module session_store.

(** [INSERT OR REPLACE INTO sessions ...] *)
Definition save (record : SessionRecord.t) : M unit :=
  λ w, let sid := SessionRecord.session_id record in
       if insert_fails (env w) sid then (Raise (sqlite3_Error sid), w)
       else (Ok tt, emit (EvStoreSave sid)
                      (set_db <[sid := Row.of_record record]> w)).

(** [SELECT ... WHERE session_id = ?], [None] when there is no row. *)
Definition get (session_id : string) : M (option SessionRecord.t) :=
  gets (λ w, Row.to_record session_id <$> db w !! session_id).

(** [DELETE FROM sessions WHERE session_id = ?] *)
Definition delete (session_id : string) : M unit :=
  modify (λ w, emit (EvStoreDelete session_id) (set_db (base.delete session_id) w)).

(** [SELECT ... FROM sessions] *)
Definition list_all : M (list SessionRecord.t) :=
  gets (λ w, (λ kv, Row.to_record kv.1 kv.2) <$> map_to_list (db w)).

(** [UPDATE sessions SET last_modified = ? WHERE session_id = ?]: a
    statement that matches no row changes nothing and is no error. *)
Definition update_last_modified (session_id : string) (timestamp : Z) : M unit :=
  modify (λ w, emit (EvStoreUpdate session_id timestamp)
                 (set_db (alter (Row.set_last_modified timestamp) session_id) w)).

End session_store.

(** ** [api.deps]: the lifecycle manager *)

(** [session_id in sessions] *)
Definition sessions_contains (session_id : string) : M bool :=
  gets (λ w, bool_decide (is_Some (sessions w !! session_id))).

(** [sessions[session_id] = session] *)
Definition sessions_setitem (session_id : string) (session : Session.t) : M unit :=
  modify (set_sessions <[session_id := session]>).

(** [sessions[session_id]] *)
Definition sessions_getitem (session_id : string) : M Session.t :=
  λ w, match sessions w !! session_id with
       | Some session => (Ok session, w)
       | None => (Raise (KeyError session_id), w)
       end.

(** [sessions.pop(session_id)] *)
Definition sessions_pop (session_id : string) : M Session.t :=
  λ w, match sessions w !! session_id with
       | Some session => (Ok session, set_sessions (base.delete session_id) w)
       | None => (Raise (KeyError session_id), w)
       end.

Definition build_session_data (session_id filename storage_path : string)
    (created_at last_modified : Z) : M Session.t :=
  let* doc_manager := DocumentManager.new in
  DocumentManager.load_pdf doc_manager storage_path ;;;
  let* doc := DocumentManager.get_document doc_manager in
  let* page_count := len doc in
  ret {| Session.id := session_id;
         Session.filename := filename;
         Session.storage_path := storage_path;
         Session.document_manager := doc_manager;
         Session.created_at := created_at;
         Session.last_modified := last_modified;
         Session.page_count := page_count;
         Session.editor :=
           if Nat.ltb 0 page_count then Some (mkEditor doc_manager) else None;
         Session.page_manipulator :=
           if Nat.ltb 0 page_count then Some (mkPageManipulator doc_manager) else None;
         Session.metadata_editor :=
           if Nat.ltb 0 page_count then Some (mkMetadataEditor doc_manager) else None |}.

Definition not_found : Exn := HTTPException 404 "Session not found".

Definition get_session (session_id : string) : M Session.t :=
  let* cached := sessions_contains session_id in
  (if negb cached then
     let* record := session_store.get session_id in
     match record with
     | None => raise not_found
     | Some record =>
         let* session :=
           build_session_data (SessionRecord.session_id record)
             (SessionRecord.filename record) (SessionRecord.storage_path record)
             (SessionRecord.created_at record) (SessionRecord.last_modified record) in
         sessions_setitem session_id session
     end
   else ret tt) ;;;
  sessions_getitem session_id.

(** [str(STORAGE_DIR / f"{session_id}_{safe_filename}")]: the segment has
    no separator and is not empty, so the joined path is the directory, a
    separator and the segment. *)
Definition storage_path_of (e : Env) (session_id safe_filename : string) : string :=
  STORAGE_DIR e +:+ "/" +:+ (session_id +:+ "_" +:+ safe_filename).

Definition create_session (file_path filename : string) : M string :=
  let* session_id := uuid4 in
  let safe_filename := sanitize_filename filename in
  let* storage_path := gets (λ w, storage_path_of (env w) session_id safe_filename) in
  shutil_copy file_path storage_path ;;;
  try_finally
    (try_except
       (let* now := datetime_now in
        let* session :=
          build_session_data session_id safe_filename storage_path now now in
        let record := SessionRecord.mk session_id safe_filename storage_path now now in
        session_store.save record ;;;
        sessions_setitem session_id session ;;;
        ret session_id)
       (λ exc,
          let* present := os_path_exists storage_path in
          when present (os_remove storage_path) ;;;
          raise exc))
    (let* present := os_path_exists file_path in
     when present (os_remove file_path)).

(** Truth value of a string: the empty string is falsy. *)
Definition str_truthy (s : string) : bool := negb (String.eqb s "").

Definition delete_session (session_id : string) : M unit :=
  let* cached := sessions_contains session_id in
  (if cached then
     let* session := sessions_pop session_id in
     let doc_manager := Session.document_manager session in
     DocumentManager.close_document doc_manager ;;;
     let storage_path := Session.storage_path session in
     let* present :=
       (if str_truthy storage_path then os_path_exists storage_path else ret false) in
     when present (os_remove storage_path)
   else ret tt) ;;;
  session_store.delete session_id.

(** The test of the reaper on one record, given the cutoff and whether the
    session is in [sessions]. *)
Definition stale (cutoff : Z) (warm : bool) (record : SessionRecord.t) : bool :=
  (SessionRecord.last_modified record <? cutoff) && negb warm.

Definition reap_record (cutoff : Z) (removed : Z) (record : SessionRecord.t) : M Z :=
  let* warm := sessions_contains (SessionRecord.session_id record) in
  if stale cutoff warm record then
    try_except
      (let* present := os_path_exists (SessionRecord.storage_path record) in
       when present (os_remove_refusable (SessionRecord.storage_path record)))
      (λ exc, logger_warning (SessionRecord.storage_path record)) ;;;
    session_store.delete (SessionRecord.session_id record) ;;;
    ret (removed + 1)
  else ret removed.

Definition cleanup_stale_sessions : M unit :=
  let* now := datetime_now in
  let* ttl := gets (λ w, SESSION_TTL_HOURS (env w)) in
  let cutoff := now - timedelta_hours ttl in
  let* records := session_store.list_all in
  let* removed := for_each records 0 (reap_record cutoff) in
  when (negb (removed =? 0)) (logger_info removed).

(** [session] is the dictionary stored at [sessions[session_id]]; the item
    assignments on it are updates of that slot of the cache. *)
Definition persist_session_document (session_id : string) : M Session.t :=
  let* session := get_session session_id in
  let storage_path := Session.storage_path session in
  let doc_manager := Session.document_manager session in
  let temp_path := storage_path +:+ ".tmp" in
  try_except
    (DocumentManager.save_pdf doc_manager temp_path ;;;
     os_replace temp_path storage_path)
    (λ exc,
       let* present := os_path_exists temp_path in
       when present (os_remove temp_path) ;;;
       raise exc) ;;;
  let* now := datetime_now in
  modify (set_sessions (alter (Session.set_last_modified now) session_id)) ;;;
  let* doc := DocumentManager.get_document doc_manager in
  let* n := len doc in
  modify (set_sessions (alter (Session.set_page_count n) session_id)) ;;;
  session_store.update_last_modified session_id now ;;;
  sessions_getitem session_id.

(** ** Vocabulary of the statements *)

(** The world after a manager object was created and [doc] loaded into it
    from [path]. *)
Definition opened (path : string) (doc : Document) (w : World) : World :=
  emit (EvOpen path (length (managers w))) (set_managers (λ l, l ++ [Some doc]) w).

(** A session is warm when [sessions] has an entry for it. *)
Definition warm (w : World) (session_id : string) : bool :=
  bool_decide (is_Some (sessions w !! session_id)).

(** The id the next [create_session] draws, and the path it stores the
    upload under. *)
Definition next_session_id (w : World) : string :=
  Uuid.uuid4_str (urandom (env w) (draws w)).

Definition next_storage_path (w : World) (filename : string) : string :=
  storage_path_of (env w) (next_session_id w) (sanitize_filename filename).

(** The cutoff [cleanup_stale_sessions] computes in a world. *)
Definition cutoff_of (w : World) : Z :=
  clock w - timedelta_hours (SESSION_TTL_HOURS (env w)).

(** The temporary path [persist_session_document] saves to. *)
Definition temp_path_of (storage_path : string) : string := storage_path +:+ ".tmp".

(** ** Concrete worlds *)

Module Sample.

(** An environment in which nothing outside the code fails. *)
Definition env : Env :=
  mkEnv "/srv/app/storage" 24 (λ n, Z.of_nat n) (λ _, false) (λ _ _, Saved) (λ _, false)
    (λ _, false).

Definition upload : string := "/tmp/upload_report.pdf".

(** A fresh process: one uploaded three-page file in the temp directory. *)
Definition fresh : World :=
  mkWorld env {[ upload := PdfData [1; 2; 3]%nat ]} ∅ ∅ [] 1000 0 [].

Definition sid : string := "00000000-0000-4000-8000-000000000000".

Definition path : string :=
  "/srv/app/storage/00000000-0000-4000-8000-000000000000_report.pdf".

(** The world after the upload was turned into a session. *)
Definition created : World := (create_session upload "docs/report.pdf" fresh).2.

(** The entry of that session. *)
Definition entry : Session.t :=
  {| Session.id := sid;
     Session.filename := "report.pdf";
     Session.storage_path := path;
     Session.document_manager := 0;
     Session.created_at := 1000;
     Session.last_modified := 1000;
     Session.page_count := 3;
     Session.editor := Some (mkEditor 0);
     Session.page_manipulator := Some (mkPageManipulator 0);
     Session.metadata_editor := Some (mkMetadataEditor 0) |}.

(** Later, with page 2 deleted by the page manipulator and a disk on
    which a save breaks off, leaving a truncated file. *)
Definition disk_full : World :=
  mkWorld
    (mkEnv "/srv/app/storage" 24 (λ n, Z.of_nat n) (λ _, false)
           (λ _ _, SaveFailed (Some (RawData []))) (λ _, false) (λ _, false))
    (fs created) (db created) (sessions created) [Some [1; 3]%nat] 2000 1 [].

(** The same session after a restart of the process: the record and the
    content file are there, [sessions] and the heap are empty. *)
Definition restarted : World :=
  mkWorld env (fs created) (db created) ∅ [] 5000 1 [].

(** Twenty-five hours after the upload, with a time-to-live of 24 hours:
    once with the session only in the store, once with it still cached. *)
Definition day_later_cold : World :=
  mkWorld env (fs created) (db created) ∅ [] (1000 + timedelta_hours 25) 1 [].

Definition day_later_warm : World :=
  mkWorld env (fs created) (db created) (sessions created) (managers created)
    (1000 + timedelta_hours 25) 1 [].

(** The cold session a day later, on a file system that refuses to unlink
    its content file. *)
Definition day_later_locked : World :=
  mkWorld
    (mkEnv "/srv/app/storage" 24 (λ n, Z.of_nat n) (λ _, false) (λ _ _, Saved)
           (λ _, false) (λ p, String.eqb p path))
    (fs created) (db created) ∅ [] (1000 + timedelta_hours 25) 1 [].

(** After a restart, with the record in the store and the content file
    gone from the storage directory. *)
Definition lost_file : World :=
  mkWorld env ∅ (db created) ∅ [] 5000 1 [].

(** An upload that opens and has no pages. *)
Definition blank : World :=
  mkWorld env {[ upload := PdfData [] ]} ∅ ∅ [] 1000 0 [].

End Sample.

(** A file-system whose names hold at most 255 bytes: an upload whose name
    fits under [/tmp/upload_...] but no longer once the 37 characters of
    session id and underscore are put in front. *)
Module LongName.

Definition name : string :=
  string_of_list_ascii (repeat "a"%char 240) +:+ ".pdf".

Definition upload : string := "/tmp/upload_" +:+ name.

Definition name_too_long (path : string) : bool :=
  Nat.ltb 255 (String.length (os_path_basename path)).

Definition env : Env :=
  mkEnv "/srv/app/storage" 24 (λ n, Z.of_nat n) name_too_long (λ _ _, Saved) (λ _, false)
    (λ _, false).

Definition world : World :=
  mkWorld env {[ upload := PdfData [1; 2; 3]%nat ]} ∅ ∅ [] 1000 0 [].

End LongName.


(** ** Invariants of the two stores *)

(** The row a cache entry stands for. *)
Definition entry_row (e : Session.t) : Row.t :=
  Row.mk (Session.filename e) (Session.storage_path e)
         (Session.created_at e) (Session.last_modified e).

(** Cache and store agree: every entry is filed under its own id, and the
    store holds the record of that id with the columns of the entry. *)
Definition coherent (w : World) : Prop :=
  ∀ sid e, sessions w !! sid = Some e →
    Session.id e = sid ∧ db w !! sid = Some (entry_row e).

(** Every cached entry has a manager with an open document, and no two
    entries share a manager. *)
Definition exclusive (w : World) : Prop :=
  (∀ sid e, sessions w !! sid = Some e →
     is_Some (DocumentManager.document w (Session.document_manager e))) ∧
  (∀ sid1 sid2 e1 e2,
     sessions w !! sid1 = Some e1 → sessions w !! sid2 = Some e2 →
     Session.document_manager e1 = Session.document_manager e2 → sid1 = sid2).

(** ** More concrete worlds *)

Module More.

(** An upload that PyMuPDF does not open. *)
Definition garbage : World :=
  mkWorld Sample.env {[ Sample.upload := RawData [37; 80; 68; 70] ]} ∅ ∅ [] 1000 0 [].

End More.

(** ** [api/models.py] *)

Module DocumentSession.

Record t := mk {
  id : string;
  filename : string;
  page_count : nat;
  current_page : Z;
  created_at : Z;
  last_modified : Z
}.

End DocumentSession.

(** What a handler puts into the [data] field of an [APIResponse]. *)
Inductive Data :=
| SessionDict (doc_session : DocumentSession.t)
| PageCountDict (page_count : nat).

Inductive Response :=
| APIResponse (success : bool) (data : option Data) (error message : option string)
| FileResponse (path filename media_type : string).

(** ** [api/routes/documents.py]: the handlers of the session lifecycle *)

(** The uploaded file as the upload handler reads it: its client-side
    name, its content and the size [seek]/[tell] report. *)
Module UploadFile.

Record t := mk {
  filename : string;
  content : FileData;
  size : Z
}.

End UploadFile.

(** What the handlers take from the host beyond [Env]: the constants
    [TEMP_DIR] and [MAX_UPLOAD_MB] of [api/deps.py], whether the temp
    directory refuses to create a file, and [str(e)] of an exception. *)
Record Host := mkHost {
  TEMP_DIR : string;
  MAX_UPLOAD_MB : Z;
  write_refused : string → bool;
  exn_str : Exn → string
}.

Fixpoint endswith_sep (s : string) : bool :=
  match s with
  | EmptyString => false
  | String a EmptyString => Ascii.eqb a Str.sep
  | String _ s' => endswith_sep s'
  end.

(** [posixpath.join(a, b)] *)
Definition os_path_join (a b : string) : string :=
  if String.prefix "/" b then b
  else if String.eqb a "" || endswith_sep a then a +:+ b
  else a +:+ "/" +:+ b.

(** [with open(path, "wb") as f: f.write(data)] *)
Definition open_write (h : Host) (path : string) (data : FileData) : M unit :=
  λ w, if write_refused h path then (Raise (OSError path), w)
       else (Ok tt, set_fs <[path := data]> w).

Module routes.

Definition document_session (doc_id : string) (session : Session.t) : DocumentSession.t :=
  DocumentSession.mk doc_id (Session.filename session) (Session.page_count session) 0
    (Session.created_at session) (Session.last_modified session).

Definition upload_temp_path (h : Host) (file : UploadFile.t) : string :=
  os_path_join (TEMP_DIR h) ("upload_" +:+ UploadFile.filename file).

Definition upload_document (h : Host) (file : UploadFile.t) : M Response :=
  try_except
    (when (MAX_UPLOAD_MB h * 1024 * 1024 <? UploadFile.size file)
       (raise (HTTPException 413 "File too large")) ;;;
     let temp_path := upload_temp_path h file in
     open_write h temp_path (UploadFile.content file) ;;;
     let* session_id := create_session temp_path (UploadFile.filename file) in
     let* session := sessions_getitem session_id in
     let doc_session := document_session session_id session in
     ret (APIResponse true (Some (SessionDict doc_session)) None
            (Some "Document uploaded successfully")))
    (λ e, raise (HTTPException 500 (exn_str h e))).

Definition get_document_info (doc_id : string) : M Response :=
  let* session := get_session doc_id in
  let doc_session := document_session doc_id session in
  ret (APIResponse true (Some (SessionDict doc_session)) None None).


Definition download_document (doc_id : string) : M Response :=
  let* session := persist_session_document doc_id in
  ret (FileResponse (Session.storage_path session) (Session.filename session)
         "application/pdf").

Definition get_page_count (doc_id : string) : M Response :=
  let* session := get_session doc_id in
  ret (APIResponse true (Some (PageCountDict (Session.page_count session))) None None).

End routes.

Module Upload.

(** A host whose temp directory is [/tmp], with the default limit of
    50 MB. *)
Definition host : Host := mkHost "/tmp" 50 (λ _, false) (λ _, "error").

Definition report : UploadFile.t :=
  UploadFile.mk "report.pdf" (PdfData [1; 2; 3]%nat) 4096.

(** A process that has not seen an upload yet. *)
Definition idle : World := mkWorld Sample.env ∅ ∅ ∅ [] 1000 0 [].

Definition too_large : UploadFile.t :=
  UploadFile.mk "scan.pdf" (PdfData [1]%nat) (50 * 1024 * 1024 + 1).

(** The world after [report] was uploaded into [idle], and the answer the
    client got. *)
Definition served : World := (routes.upload_document host report idle).2.

Definition answer : Response :=
  APIResponse true
    (Some (SessionDict (DocumentSession.mk Sample.sid "report.pdf" 3 0 1000 1000)))
    None (Some "Document uploaded successfully").

End Upload.

(** * Verification *)

(** ** The model on concrete inputs *)

Example basename_plain : os_path_basename "report.pdf" = "report.pdf".
Proof. reflexivity. Qed.

Example basename_traversal : os_path_basename "../../etc/passwd" = "passwd".
Proof. reflexivity. Qed.

Example basename_trailing : os_path_basename "a/b/" = "".
Proof. reflexivity. Qed.

Example uuid4_zero : Uuid.uuid4_str 0 = "00000000-0000-4000-8000-000000000000".
Proof. reflexivity. Qed.

Example uuid4_ones :
  Uuid.uuid4_str (Z.ones 128) = "ffffffff-ffff-4fff-bfff-ffffffffffff".
Proof. reflexivity. Qed.

(** ** Facts on strings and paths *)

Lemma chars_app (s t : string) : Str.chars (s +:+ t) = Str.chars s ++ Str.chars t.
Proof. induction s as [|a s IH]; simpl; [done | by rewrite IH]. Qed.

Lemma chars_slice_from (s : string) (n : nat) :
  Str.chars (Str.slice_from s n) = drop n (Str.chars s).
Proof.
  revert s; induction n as [|n IH]; intros [|a s]; simpl; auto.
Qed.

Lemma slice_from_suffix (s : string) (n : nat) : Str.is_suffix (Str.slice_from s n) s.
Proof.
  revert s; induction n as [|n IH]; intros s.
  - exists ""%string. by destruct s.
  - destruct s as [|a s]; [by exists ""%string |].
    destruct (IH s) as [h Hh]. exists (String a h).
    change (String a s = String a (h +:+ Str.slice_from s n)). by f_equal.
Qed.

Lemma rfind_from_spec (c : ascii) (s : string) (i acc : Z) :
  ((c ∉ Str.chars s) ∧ Str.rfind_from c s i acc = acc) ∨
  (∃ k : nat, Str.rfind_from c s i acc = i + Z.of_nat k ∧
     Str.chars s !! k = Some c ∧ c ∉ drop (S k) (Str.chars s)).
Proof.
  revert i acc; induction s as [|a s IH]; intros i acc; simpl.
  - left. split; [apply not_elem_of_nil | done].
  - destruct (IH (i + 1) (if Ascii.eqb a c then i else acc)) as [[Hnot Hr] | [k (Hr & Hk & Hnot)]].
    + destruct (Ascii.eqb a c) eqn:Hac.
      * apply Ascii.eqb_eq in Hac as ->.
        right. exists 0%nat. split; [lia | done].
      * left. split; [| done].
        apply Ascii.eqb_neq in Hac. rewrite not_elem_of_cons. split; [congruence | done].
    + right. exists (S k). split; [lia | done].
Qed.

Lemma basename_no_sep (p : string) : Str.no_sep (os_path_basename p).
Proof.
  unfold Str.no_sep, os_path_basename, Str.rfind. rewrite chars_slice_from.
  destruct (rfind_from_spec Str.sep p 0 (-1)) as [[Hnot ->] | [k (-> & _ & Hnot)]].
  - done.
  - by replace (Z.to_nat (0 + Z.of_nat k + 1)) with (S k) by lia.
Qed.

Lemma basename_suffix (p : string) : Str.is_suffix (os_path_basename p) p.
Proof. apply slice_from_suffix. Qed.

Lemma chars_inj (s t : string) : Str.chars s = Str.chars t → s = t.
Proof.
  unfold Str.chars. intros H.
  rewrite <- (string_of_list_ascii_of_string s), <- (string_of_list_ascii_of_string t).
  by rewrite H.
Qed.

(** The base name of [h/t], for a [t] free of separators, is [t]. *)
Lemma basename_last_component (h t : string) :
  Str.no_sep t → os_path_basename (h +:+ "/" +:+ t) = t.
Proof.
  intros Ht. unfold os_path_basename, Str.rfind.
  apply chars_inj. rewrite chars_slice_from.
  assert (Hp : Str.chars (h +:+ "/" +:+ t) = Str.chars h ++ Str.sep :: Str.chars t).
  { by rewrite !chars_app. }
  destruct (rfind_from_spec Str.sep (h +:+ "/" +:+ t) 0 (-1))
    as [[Hnot _] | [k (-> & Hk & Hnot)]].
  - exfalso. apply Hnot. rewrite Hp. apply elem_of_app. right. by left.
  - replace (Z.to_nat (0 + Z.of_nat k + 1)) with (S k) by lia.
    rewrite Hp in Hk, Hnot |- *.
    assert (k = length (Str.chars h)) as ->.
    { destruct (Nat.lt_trichotomy k (length (Str.chars h))) as [Hlt | [Heq | Hgt]];
        [| done |]; exfalso.
      - apply Hnot. apply (list_elem_of_lookup_2 _ (length (Str.chars h) - S k)%nat).
        rewrite lookup_drop.
        replace (S k + (length (Str.chars h) - S k))%nat
          with (length (Str.chars h) + 0)%nat by lia.
        by rewrite lookup_app_r, Nat.add_comm, Nat.add_sub by lia.
      - rewrite lookup_app_r in Hk by lia.
        destruct (k - length (Str.chars h))%nat as [|j] eqn:Hj; [lia |].
        simpl in Hk. apply Ht. by eapply list_elem_of_lookup_2. }
    change (S (length (Str.chars h))) with (1 + length (Str.chars h))%nat.
    rewrite Nat.add_comm, <- drop_drop, drop_app_length. done.
Qed.

Lemma basename_id (p : string) : Str.no_sep p → os_path_basename p = p.
Proof.
  intros Hp. unfold os_path_basename, Str.rfind.
  destruct (rfind_from_spec Str.sep p 0 (-1)) as [[_ ->] | [k (_ & Hk & _)]]; [by destruct p |].
  exfalso. apply Hp. by eapply list_elem_of_lookup_2.
Qed.

Lemma hexdigit_not_sep (n : Z) : Uuid.hexdigit n ≠ Str.sep.
Proof.
  unfold Uuid.hexdigit. change 15 with (Z.ones 4). rewrite Z.land_ones by lia.
  pose proof (Z.mod_pos_bound n (2 ^ 4) ltac:(lia)) as Hb.
  set (m := n `mod` 2 ^ 4) in *.
  assert (Hm : (Z.to_nat m < 16)%nat) by lia.
  revert Hm. generalize (Z.to_nat m). intros k Hk.
  do 16 (destruct k as [|k]; [by cbv |]). lia.
Qed.

Lemma uuid_str_chars_no_sep (n : Z) : Forall (λ a, a ≠ Str.sep) (Uuid.str_chars n).
Proof.
  assert (Hh : Forall (λ a, a ≠ Str.sep) (Uuid.hex32 n)).
  { unfold Uuid.hex32. apply List.Forall_forall. intros a Ha.
    apply in_map_iff in Ha as [k [<- _]]. apply hexdigit_not_sep. }
  assert (Hd : Uuid.dash ≠ Str.sep) by (by compute).
  unfold Uuid.str_chars. revert Hh. generalize (Uuid.hex32 n). intros h Hh.
  repeat (first [apply Forall_app_2 | apply Forall_cons_2]);
    auto using Forall_take, Forall_drop.
Qed.

Lemma uuid_str_no_sep (n : Z) : Str.no_sep (Uuid.str n).
Proof.
  unfold Str.no_sep, Uuid.str, Str.chars.
  rewrite list_ascii_of_string_of_list_ascii.
  intros Hin. pose proof (uuid_str_chars_no_sep n) as HF.
  rewrite Forall_forall in HF. apply (HF _ Hin). done.
Qed.

Lemma string_length_chars (s : string) : String.length s = length (Str.chars s).
Proof. induction s; simpl; auto. Qed.

Lemma string_length_app (s t : string) :
  String.length (s +:+ t) = (String.length s + String.length t)%nat.
Proof. by rewrite !string_length_chars, chars_app, length_app. Qed.

Lemma uuid_str_length (n : Z) : String.length (Uuid.str n) = 36%nat.
Proof.
  rewrite string_length_chars. unfold Uuid.str, Str.chars.
  rewrite list_ascii_of_string_of_list_ascii.
  cbv [Uuid.str_chars Uuid.hex32 map seq take drop app length]. reflexivity.
Qed.

Lemma no_sep_app (s t : string) : Str.no_sep s → Str.no_sep t → Str.no_sep (s +:+ t).
Proof. unfold Str.no_sep. rewrite chars_app, elem_of_app. tauto. Qed.

Lemma storage_filename_no_sep (random : Z) (filename : string) :
  Str.no_sep (Uuid.uuid4_str random +:+ "_" +:+ sanitize_filename filename).
Proof.
  apply no_sep_app; [apply uuid_str_no_sep |].
  apply no_sep_app; [| apply basename_no_sep].
  unfold Str.no_sep. simpl. rewrite list_elem_of_singleton. by cbv.
Qed.

(** ** Evaluation of the building blocks *)

Ltac py_prims :=
  unfold sessions_contains, sessions_setitem, sessions_getitem, sessions_pop,
    session_store.save, session_store.get, session_store.delete,
    session_store.list_all, session_store.update_last_modified,
    DocumentManager.new, DocumentManager.load_pdf, DocumentManager.save_pdf,
    DocumentManager.get_document, DocumentManager.close_document, len,
    os_path_exists, os_remove, os_remove_refusable, os_replace, shutil_copy,
    datetime_now, uuid4,
    logger_warning, logger_info,
    try_except, try_finally, when, bind, ret, raise, gets, modify in *.

Lemma insert_at_end {A} (l : list A) (x y : A) : <[length l := x]> (l ++ [y]) = l ++ [x].
Proof. rewrite insert_app_r_alt by lia. by rewrite Nat.sub_diag. Qed.

Lemma lookup_at_end {A} (l : list A) (x : A) : (l ++ [x]) !! length l = Some x.
Proof. rewrite lookup_app_r by lia. by rewrite Nat.sub_diag. Qed.

Lemma build_session_data_ok sid fn sp ca lm w d :
  fs w !! sp = Some (PdfData d) →
  ∃ s, build_session_data sid fn sp ca lm w = (Ok s, opened sp d w) ∧
       Session.id s = sid ∧ Session.filename s = fn ∧ Session.storage_path s = sp ∧
       Session.created_at s = ca ∧ Session.last_modified s = lm ∧
       Session.document_manager s = length (managers w) ∧
       Session.page_count s = length d ∧
       Session.editor s =
         (if Nat.ltb 0 (length d) then Some (mkEditor (length (managers w))) else None) ∧
       Session.page_manipulator s =
         (if Nat.ltb 0 (length d) then Some (mkPageManipulator (length (managers w))) else None) ∧
       Session.metadata_editor s =
         (if Nat.ltb 0 (length d) then Some (mkMetadataEditor (length (managers w))) else None).
Proof.
  intros Hfs. unfold build_session_data. py_prims. simpl. rewrite Hfs. simpl.
  unfold DocumentManager.document, opened, set_managers, emit. simpl.
  rewrite insert_at_end, lookup_at_end. simpl.
  eexists. split; [reflexivity |]. simpl. done.
Qed.

Lemma build_session_data_fail sid fn sp ca lm w :
  (∀ d, fs w !! sp ≠ Some (PdfData d)) →
  build_session_data sid fn sp ca lm w =
    (Raise (PDFLoadError sp), set_managers (λ l, l ++ [None]) w).
Proof.
  intros Hfs. unfold build_session_data. py_prims. simpl.
  destruct (fs w !! sp) as [[d|b]|] eqn:E; try done. by destruct (Hfs d).
Qed.

Lemma document_opened path d w :
  DocumentManager.document (opened path d w) (length (managers w)) = Some d.
Proof. unfold DocumentManager.document, opened. simpl. by rewrite lookup_at_end. Qed.

Lemma document_opened_old path d w h :
  (h < length (managers w))%nat →
  DocumentManager.document (opened path d w) h = DocumentManager.document w h.
Proof.
  intros Hh. unfold DocumentManager.document, opened. simpl. by rewrite lookup_app_l.
Qed.

(** ** Resolve *)

Lemma get_session_cached sid w e :
  sessions w !! sid = Some e → get_session sid w = (Ok e, w).
Proof.
  intros He. unfold get_session. py_prims. rewrite He. simpl. by rewrite He.
Qed.

Lemma get_session_missing sid w :
  sessions w !! sid = None → db w !! sid = None →
  get_session sid w = (Raise not_found, w).
Proof.
  intros He Hdb. unfold get_session. py_prims. rewrite He. simpl. by rewrite Hdb.
Qed.

Lemma get_session_hydrate sid w row d :
  sessions w !! sid = None → db w !! sid = Some row →
  fs w !! Row.storage_path row = Some (PdfData d) →
  ∃ e, get_session sid w =
         (Ok e, set_sessions <[sid := e]> (opened (Row.storage_path row) d w)) ∧
       Session.id e = sid ∧ Session.filename e = Row.filename row ∧
       Session.storage_path e = Row.storage_path row ∧
       Session.created_at e = Row.created_at row ∧
       Session.last_modified e = Row.last_modified row ∧
       Session.document_manager e = length (managers w) ∧
       Session.page_count e = length d.
Proof.
  intros He Hdb Hfs.
  destruct (build_session_data_ok sid (Row.filename row) (Row.storage_path row)
              (Row.created_at row) (Row.last_modified row) w d Hfs)
    as (e & Hb & Hrest).
  exists e. split; [| tauto].
  unfold get_session. py_prims. rewrite He. simpl. rewrite Hdb. simpl.
  rewrite Hb. simpl. by rewrite lookup_insert_eq.
Qed.

Lemma get_session_unloadable sid w row :
  sessions w !! sid = None → db w !! sid = Some row →
  (∀ d, fs w !! Row.storage_path row ≠ Some (PdfData d)) →
  get_session sid w =
    (Raise (PDFLoadError (Row.storage_path row)), set_managers (λ l, l ++ [None]) w).
Proof.
  intros He Hdb Hfs. unfold get_session. py_prims. rewrite He. simpl. rewrite Hdb. simpl.
  by rewrite (build_session_data_fail _ _ _ _ _ _ Hfs).
Qed.

(** C5. Resolve returns the cached entry when there is one. Otherwise it
    raises the 404 [HTTPException] exactly when the store has no record for
    the id; when there is a record whose content file opens, it loads the
    document from the record's [storage_path] into a new manager, builds the
    entry from the record, stores it in [sessions] and returns it. (A record
    whose file does not open ends in [PDFLoadError], which is not the 404,
    and caches nothing.) *)
Theorem get_session_resolves (sid : string) (w : World) :
  (∀ e, sessions w !! sid = Some e → get_session sid w = (Ok e, w)) ∧
  (sessions w !! sid = None →
     ((∃ w', get_session sid w = (Raise not_found, w')) ↔ db w !! sid = None) ∧
     (∀ row d, db w !! sid = Some row →
        fs w !! Row.storage_path row = Some (PdfData d) →
        ∃ e w', get_session sid w = (Ok e, w') ∧
          sessions w' = <[sid := e]> (sessions w) ∧
          DocumentManager.document w' (Session.document_manager e) = Some d ∧
          trace w' = trace w ++ [EvOpen (Row.storage_path row) (Session.document_manager e)] ∧
          Session.id e = sid ∧ Session.filename e = Row.filename row ∧
          Session.storage_path e = Row.storage_path row ∧
          Session.created_at e = Row.created_at row ∧
          Session.last_modified e = Row.last_modified row ∧
          Session.page_count e = length d) ∧
     (∀ row, db w !! sid = Some row →
        (∀ d, fs w !! Row.storage_path row ≠ Some (PdfData d)) →
        ∃ w', get_session sid w = (Raise (PDFLoadError (Row.storage_path row)), w') ∧
          sessions w' = sessions w)).
Proof.
  split; [intros e He; by apply get_session_cached |].
  intros He. split; [| split].
  - split.
    + intros [w' Hget]. destruct (db w !! sid) as [row|] eqn:Hdb; [| done].
      exfalso. destruct (fs w !! Row.storage_path row) as [[d|b]|] eqn:Hfs.
      * destruct (get_session_hydrate sid w row d He Hdb Hfs) as (e & Hg & _). congruence.
      * rewrite (get_session_unloadable sid w row He Hdb) in Hget by (intros d; congruence).
        discriminate.
      * rewrite (get_session_unloadable sid w row He Hdb) in Hget by (intros d; congruence).
        discriminate.
    + intros Hdb. eexists. by apply get_session_missing.
  - intros row d Hdb Hfs.
    destruct (get_session_hydrate sid w row d He Hdb Hfs) as (e & Hg & Hid & Hfn & Hsp & Hca & Hlm & Hdm & Hpc).
    exists e. eexists. split; [exact Hg |]. simpl.
    rewrite Hdm. unfold DocumentManager.document. simpl. by rewrite lookup_at_end.
  - intros row Hdb Hfs. eexists. split; [by apply get_session_unloadable |]. done.
Qed.

(** C5, the record without a file: the store has the record of the id and
    the content file is gone from the storage directory. Resolve raises
    [PDFLoadError]; it returns no entry and caches none. *)
Lemma get_session_lost_file_counterexample :
  sessions Sample.lost_file !! Sample.sid = None ∧
  db Sample.lost_file !! Sample.sid
    = Some (Row.mk "report.pdf" Sample.path 1000 1000) ∧
  fs Sample.lost_file !! Sample.path = None ∧
  ∃ w', get_session Sample.sid Sample.lost_file
          = (Raise (PDFLoadError Sample.path), w') ∧
        sessions w' !! Sample.sid = None.
Proof.
  split; [by vm_compute |]. split; [by vm_compute |]. split; [by vm_compute |].
  eexists. split; [vm_compute; reflexivity | by vm_compute].
Qed.

(** ** Create *)

(** The copy-in is the first effect of [create_session] and sits before its
    [try]: when it raises, nothing else runs. *)
Lemma create_session_copy_fails fp fn w exc w1 :
  shutil_copy fp (next_storage_path w fn) (set_draws S w) = (Raise exc, w1) →
  create_session fp fn w = (Raise exc, set_draws S w) ∧ w1 = set_draws S w.
Proof.
  unfold create_session, next_storage_path, next_session_id. py_prims. simpl.
  destruct (fs w !! fp) as [data|]; [| intros [= <- <-]; done].
  case_bool_decide; [intros [= <- <-]; done |].
  destruct (copy_refused _ _); [intros [= <- <-]; done | discriminate].
Qed.

(** Lookups through the inserts and deletes an evaluation leaves behind. *)
Ltac map_steps :=
  simpl;
  repeat (first
    [ rewrite lookup_insert_eq | rewrite lookup_delete_eq | rewrite lookup_alter_eq
    | rewrite lookup_insert_ne by done | rewrite lookup_delete_ne by done
    | match goal with H : ?l = _ |- context [?l] => rewrite H end ];
    simpl).

Section create_after_copy.
Context (fp fn : string) (w : World) (data : FileData).
Let sid := next_session_id w.
Let safe := sanitize_filename fn.
Let sp := next_storage_path w fn.
Context (Hsrc : fs w !! fp = Some data).
Context (Hne : fp ≠ sp).
Context (Hacc : copy_refused (env w) sp = false).

Lemma create_session_load_fails :
  (∀ d, data ≠ PdfData d) →
  ∃ w', create_session fp fn w = (Raise (PDFLoadError sp), w') ∧
    fs w' = base.delete fp (base.delete sp (<[sp := data]> (fs w))) ∧
    db w' = db w ∧ sessions w' = sessions w ∧
    trace w' = trace w ++ [EvCopy fp sp; EvRemove sp; EvRemove fp].
Proof.
  intros Hdata. unfold create_session. py_prims. simpl.
  change (Uuid.uuid4_str (urandom (env w) (draws w))) with sid.
  change (sanitize_filename fn) with safe.
  change (storage_path_of (env w) sid safe) with sp.
  rewrite Hsrc. rewrite bool_decide_eq_false_2 by done. rewrite Hacc.
  rewrite build_session_data_fail
    by (simpl; rewrite lookup_insert_eq; intros d [= ->]; by apply (Hdata d)).
  simpl. map_steps.
  eexists. split; [reflexivity |]. simpl.
  by rewrite <- !app_assoc.
Qed.

Lemma create_session_insert_fails d :
  data = PdfData d → insert_fails (env w) sid = true →
  ∃ w', create_session fp fn w = (Raise (sqlite3_Error sid), w') ∧
    fs w' = base.delete fp (base.delete sp (<[sp := data]> (fs w))) ∧
    db w' = db w ∧ sessions w' = sessions w ∧
    trace w' = trace w ++ [EvCopy fp sp; EvOpen sp (length (managers w));
                           EvRemove sp; EvRemove fp].
Proof.
  intros -> Hins. unfold create_session. py_prims. simpl.
  change (Uuid.uuid4_str (urandom (env w) (draws w))) with sid.
  change (sanitize_filename fn) with safe.
  change (storage_path_of (env w) sid safe) with sp.
  rewrite Hsrc. rewrite bool_decide_eq_false_2 by done. rewrite Hacc.
  match goal with |- context [build_session_data ?a ?b ?c ?x ?y ?w1] =>
    destruct (build_session_data_ok a b c x y w1 d) as (e & -> & _)
  end; [simpl; by rewrite lookup_insert_eq |].
  simpl. rewrite Hins. simpl. map_steps.
  eexists. split; [reflexivity |]. simpl.
  by rewrite <- !app_assoc.
Qed.

Lemma create_session_ok d :
  data = PdfData d → insert_fails (env w) sid = false →
  ∃ e w', create_session fp fn w = (Ok sid, w') ∧
    fs w' = base.delete fp (<[sp := data]> (fs w)) ∧
    db w' = <[sid := Row.mk safe sp (clock w) (clock w)]> (db w) ∧
    sessions w' = <[sid := e]> (sessions w) ∧
    managers w' = managers w ++ [Some d] ∧
    trace w' = trace w ++ [EvCopy fp sp; EvOpen sp (length (managers w));
                           EvStoreSave sid; EvRemove fp] ∧
    Session.id e = sid ∧ Session.filename e = safe ∧ Session.storage_path e = sp ∧
    Session.created_at e = clock w ∧ Session.last_modified e = clock w ∧
    Session.document_manager e = length (managers w) ∧
    Session.page_count e = length d ∧
    Session.editor e =
      (if Nat.ltb 0 (length d) then Some (mkEditor (length (managers w))) else None) ∧
    Session.page_manipulator e =
      (if Nat.ltb 0 (length d) then Some (mkPageManipulator (length (managers w))) else None) ∧
    Session.metadata_editor e =
      (if Nat.ltb 0 (length d) then Some (mkMetadataEditor (length (managers w))) else None).
Proof.
  intros -> Hins. unfold create_session. py_prims. simpl.
  change (Uuid.uuid4_str (urandom (env w) (draws w))) with sid.
  change (sanitize_filename fn) with safe.
  change (storage_path_of (env w) sid safe) with sp.
  rewrite Hsrc. rewrite bool_decide_eq_false_2 by done. rewrite Hacc.
  match goal with |- context [build_session_data ?a ?b ?c ?x ?y ?w1] =>
    destruct (build_session_data_ok a b c x y w1 d) as (e & -> & He)
  end; [simpl; by rewrite lookup_insert_eq |].
  simpl in He. simpl. rewrite Hins. simpl. map_steps.
  exists e. eexists. split; [reflexivity |]. simpl.
  rewrite <- !app_assoc. simpl. tauto.
Qed.

End create_after_copy.

(** Every run of [create_session] is one of: the copy-in raised; the copy
    succeeded and the load, or the insert, raised; all of it succeeded. *)
Lemma create_session_cases fp fn w :
  (∃ exc, shutil_copy fp (next_storage_path w fn) (set_draws S w)
            = (Raise exc, set_draws S w)) ∨
  (∃ data, fs w !! fp = Some data ∧ fp ≠ next_storage_path w fn ∧
     copy_refused (env w) (next_storage_path w fn) = false ∧
     ((∀ d, data ≠ PdfData d) ∨
      (∃ d, data = PdfData d ∧ insert_fails (env w) (next_session_id w) = true) ∨
      (∃ d, data = PdfData d ∧ insert_fails (env w) (next_session_id w) = false))).
Proof.
  unfold shutil_copy. simpl.
  destruct (fs w !! fp) as [data|] eqn:Hsrc; [| left; eauto].
  case_bool_decide as Hne; [left; eauto |].
  destruct (copy_refused (env w) (next_storage_path w fn)) eqn:Hacc; [left; eauto |].
  right. exists data. repeat split; try done.
  destruct data as [d|b]; [| left; done].
  destruct (insert_fails (env w) (next_session_id w)) eqn:Hins; eauto.
Qed.

Lemma create_session_inv_ok fp fn w sid w' :
  create_session fp fn w = (Ok sid, w') →
  ∃ d, fs w !! fp = Some (PdfData d) ∧ fp ≠ next_storage_path w fn ∧
       copy_refused (env w) (next_storage_path w fn) = false ∧
       insert_fails (env w) (next_session_id w) = false ∧
       sid = next_session_id w.
Proof.
  intros Hc.
  destruct (create_session_cases fp fn w)
    as [[exc Hcopy] | (data & Hsrc & Hne & Hacc & [Hraw | [(d & -> & Hins) | (d & -> & Hins)]])].
  - apply create_session_copy_fails in Hcopy as [Hr _]. congruence.
  - destruct (create_session_load_fails fp fn w data Hsrc Hne Hacc Hraw) as (w1 & Hr & _).
    congruence.
  - destruct (create_session_insert_fails fp fn w _ Hsrc Hne Hacc d eq_refl Hins)
      as (w1 & Hr & _).
    congruence.
  - destruct (create_session_ok fp fn w _ Hsrc Hne Hacc d eq_refl Hins)
      as (e & w1 & Hr & _).
    exists d. repeat split; try done. congruence.
Qed.

(** Whatever the outcome, [create_session] touches the file system only at
    the storage path it composed and at the caller's input file. *)
Lemma create_session_frame fp fn w r w' :
  create_session fp fn w = (r, w') →
  ∀ p, p ≠ next_storage_path w fn → p ≠ fp → fs w' !! p = fs w !! p.
Proof.
  intros Hc p Hp1 Hp2.
  destruct (create_session_cases fp fn w)
    as [[exc Hcopy] | (data & Hsrc & Hne & Hacc & [Hraw | [(d & -> & Hins) | (d & -> & Hins)]])].
  - apply create_session_copy_fails in Hcopy as [Hr _].
    rewrite Hr in Hc. by injection Hc as <- <-.
  - destruct (create_session_load_fails fp fn w data Hsrc Hne Hacc Hraw)
      as (w1 & Hr & Hfs & _).
    rewrite Hr in Hc. injection Hc as <- <-. rewrite Hfs.
    by rewrite lookup_delete_ne, lookup_delete_ne, lookup_insert_ne.
  - destruct (create_session_insert_fails fp fn w _ Hsrc Hne Hacc d eq_refl Hins)
      as (w1 & Hr & Hfs & _).
    rewrite Hr in Hc. injection Hc as <- <-. rewrite Hfs.
    by rewrite lookup_delete_ne, lookup_delete_ne, lookup_insert_ne.
  - destruct (create_session_ok fp fn w _ Hsrc Hne Hacc d eq_refl Hins)
      as (e & w1 & Hr & Hfs & _).
    rewrite Hr in Hc. injection Hc as <- <-. rewrite Hfs.
    by rewrite lookup_delete_ne, lookup_insert_ne.
Qed.


(** C7. After a successful Create, an immediate Resolve of the returned id
    returns the entry Create put in the cache: its page count is that of the
    uploaded document and its [storage_path] is the path Create composed,
    which is also the one in the stored record. *)
Theorem create_then_resolve (fp fn : string) (w w1 : World) (sid : string) :
  create_session fp fn w = (Ok sid, w1) →
  ∃ e d row,
    get_session sid w1 = (Ok e, w1) ∧
    sessions w1 !! sid = Some e ∧
    fs w !! fp = Some (PdfData d) ∧
    Session.page_count e = length d ∧
    Session.storage_path e = next_storage_path w fn ∧
    db w1 !! sid = Some row ∧
    Row.storage_path row = Session.storage_path e ∧
    fs w1 !! Session.storage_path e = Some (PdfData d).
Proof.
  intros Hc.
  destruct (create_session_inv_ok _ _ _ _ _ Hc) as (d & Hsrc & Hne & Hacc & Hins & ->).
  destruct (create_session_ok fp fn w _ Hsrc Hne Hacc d eq_refl Hins)
    as (e & w2 & Hr & Hfs & Hdb & Hs & _ & _ & _ & _ & Hsp & _ & _ & _ & Hpc & _).
  rewrite Hr in Hc. injection Hc as <-.
  assert (He : sessions w2 !! next_session_id w = Some e)
    by (rewrite Hs; apply lookup_insert_eq).
  exists e, d. eexists. split; [by apply get_session_cached |].
  repeat split; try done.
  - rewrite Hdb. apply lookup_insert_eq.
  - by rewrite Hsp.
  - rewrite Hfs, Hsp. rewrite lookup_delete_ne by done. apply lookup_insert_eq.
Qed.

Lemma create_then_resolve_witness :
  create_session Sample.upload "docs/report.pdf" Sample.fresh = (Ok Sample.sid, Sample.created) ∧
  ∃ e d row,
    get_session Sample.sid Sample.created = (Ok e, Sample.created) ∧
    sessions Sample.created !! Sample.sid = Some e ∧
    fs Sample.fresh !! Sample.upload = Some (PdfData d) ∧
    Session.page_count e = length d ∧
    Session.storage_path e = next_storage_path Sample.fresh "docs/report.pdf" ∧
    db Sample.created !! Sample.sid = Some row ∧
    Row.storage_path row = Session.storage_path e ∧
    fs Sample.created !! Session.storage_path e = Some (PdfData d).
Proof.
  assert (H : create_session Sample.upload "docs/report.pdf" Sample.fresh
              = (Ok Sample.sid, Sample.created)) by (vm_compute; reflexivity).
  split; [exact H |].
  exact (create_then_resolve Sample.upload "docs/report.pdf" Sample.fresh Sample.created
           Sample.sid H).
Defined.

(** ** The storage path *)

(** C8. The sanitized name is the base name of the original name: the
    name itself when it holds no separator, and the part [t] after the
    last separator for a name [h/t]; so it holds no separator. The storage
    path is the content directory, a separator and
    [{session_id}_{sanitized name}], a single path component (too long to
    be [.] or [..]). Create copies the upload to that path as its first
    effect, it is the only path besides the caller's input at which Create
    changes the file system, and when upload, copy and insert go through
    Create returns with the content file at that path and the path in the
    record and in the cache entry. *)
Theorem storage_path_inside_content_area (fp fn : string) (w : World) :
  Str.no_sep (sanitize_filename fn) ∧
  Str.is_suffix (sanitize_filename fn) fn ∧
  (Str.no_sep fn → sanitize_filename fn = fn) ∧
  (∀ h t, fn = h +:+ "/" +:+ t → Str.no_sep t → sanitize_filename fn = t) ∧
  (∃ component,
     component = next_session_id w +:+ "_" +:+ sanitize_filename fn ∧
     Str.no_sep component ∧
     (36 < String.length component)%nat ∧
     next_storage_path w fn = STORAGE_DIR (env w) +:+ "/" +:+ component) ∧
  (∀ r w', create_session fp fn w = (r, w') →
     (∀ p, p ≠ next_storage_path w fn → p ≠ fp → fs w' !! p = fs w !! p) ∧
     (∀ sid, r = Ok sid →
        ∃ row e, db w' !! sid = Some row ∧ sessions w' !! sid = Some e ∧
          Row.filename row = sanitize_filename fn ∧
          Row.storage_path row = next_storage_path w fn ∧
          Session.storage_path e = next_storage_path w fn ∧
          is_Some (fs w' !! next_storage_path w fn))) ∧
  (∀ data, fs w !! fp = Some data → fp ≠ next_storage_path w fn →
     copy_refused (env w) (next_storage_path w fn) = false →
     ∃ r w' rest, create_session fp fn w = (r, w') ∧
       trace w' = trace w ++ EvCopy fp (next_storage_path w fn) :: rest) ∧
  (∀ d, fs w !! fp = Some (PdfData d) → fp ≠ next_storage_path w fn →
     copy_refused (env w) (next_storage_path w fn) = false →
     insert_fails (env w) (next_session_id w) = false →
     ∃ e w', create_session fp fn w = (Ok (next_session_id w), w') ∧
       fs w' !! next_storage_path w fn = Some (PdfData d) ∧
       db w' !! next_session_id w
         = Some (Row.mk (sanitize_filename fn) (next_storage_path w fn)
                   (clock w) (clock w)) ∧
       sessions w' !! next_session_id w = Some e ∧
       Session.filename e = sanitize_filename fn ∧
       Session.storage_path e = next_storage_path w fn).
Proof.
  split; [apply basename_no_sep |].
  split; [apply basename_suffix |].
  split; [apply basename_id |].
  split; [intros h t -> Ht; by apply basename_last_component |].
  split.
  { eexists. split; [reflexivity |]. split; [apply storage_filename_no_sep |].
    split; [| done].
    unfold next_session_id, Uuid.uuid4_str.
    rewrite string_length_app, uuid_str_length, string_length_app. simpl. lia. }
  split; [| split].
  - intros r w' Hc. split; [by eapply create_session_frame |].
    intros sid ->.
    destruct (create_session_inv_ok _ _ _ _ _ Hc) as (d & Hsrc & Hne & Hacc & Hins & ->).
    destruct (create_session_ok fp fn w _ Hsrc Hne Hacc d eq_refl Hins)
      as (e & w2 & Hr & Hfs & Hdb & Hs & _ & _ & _ & _ & Hsp & _).
    rewrite Hr in Hc. injection Hc as <-.
    eexists. exists e. rewrite Hdb, Hs, Hfs, !lookup_insert_eq.
    rewrite lookup_delete_ne, lookup_insert_eq by done.
    split; [reflexivity |]. simpl. eauto 10.
  - intros data Hsrc Hne Hacc.
    assert (Hcases : (∀ d, data ≠ PdfData d) ∨ ∃ d, data = PdfData d).
    { destruct data as [d|b]; [right; by exists d | left; by intros d]. }
    destruct Hcases as [Hraw | [d ->]].
    + destruct (create_session_load_fails fp fn w data Hsrc Hne Hacc Hraw)
        as (w' & Hr & _ & _ & _ & Htr).
      eexists _, w', _. split; [exact Hr | exact Htr].
    + destruct (insert_fails (env w) (next_session_id w)) eqn:Hins.
      * destruct (create_session_insert_fails fp fn w _ Hsrc Hne Hacc d eq_refl Hins)
          as (w' & Hr & _ & _ & _ & Htr).
        eexists _, w', _. split; [exact Hr | exact Htr].
      * destruct (create_session_ok fp fn w _ Hsrc Hne Hacc d eq_refl Hins)
          as (e & w' & Hr & _ & _ & _ & _ & Htr & _).
        eexists _, w', _. split; [exact Hr | exact Htr].
  - intros d Hsrc Hne Hacc Hins.
    destruct (create_session_ok fp fn w _ Hsrc Hne Hacc d eq_refl Hins)
      as (e & w' & Hr & Hfs & Hdb & Hs & _ & _ & _ & Hfn & Hsp & _).
    exists e, w'. split; [exact Hr |]. rewrite Hfs, Hdb, Hs, !lookup_insert_eq.
    rewrite lookup_delete_ne, lookup_insert_eq by done. done.
Qed.

Lemma storage_path_inside_content_area_witness :
  sanitize_filename "docs/report.pdf" = "report.pdf" ∧
  ∃ e w', create_session Sample.upload "docs/report.pdf" Sample.fresh
            = (Ok (next_session_id Sample.fresh), w') ∧
    fs w' !! next_storage_path Sample.fresh "docs/report.pdf"
      = Some (PdfData [1; 2; 3]%nat) ∧
    sessions w' !! next_session_id Sample.fresh = Some e ∧
    Session.storage_path e = next_storage_path Sample.fresh "docs/report.pdf".
Proof.
  pose proof (storage_path_inside_content_area Sample.upload "docs/report.pdf" Sample.fresh)
    as (_ & _ & _ & Hbase & _ & _ & _ & Hok).
  split; [apply (Hbase "docs" "report.pdf"); [reflexivity |] |].
  - apply (@bool_decide_unpack (Str.sep ∉ Str.chars "report.pdf") _). vm_compute. exact I.
  - destruct (Hok [1; 2; 3]%nat) as (e & w' & Hr & Hfs & _ & Hs & _ & Hsp).
    + reflexivity.
    + by vm_compute.
    + reflexivity.
    + reflexivity.
    + exists e, w'. split; [exact Hr |]. split; [exact Hfs |]. split; [exact Hs | exact Hsp].
Defined.

(** ** Documents without pages *)

Lemma build_session_data_inv sid fn sp ca lm w s w' :
  build_session_data sid fn sp ca lm w = (Ok s, w') →
  ∃ d, fs w !! sp = Some (PdfData d) ∧ w' = opened sp d w ∧
       Session.page_count s = length d ∧
       Session.document_manager s = length (managers w) ∧
       Session.editor s =
         (if Nat.ltb 0 (length d) then Some (mkEditor (length (managers w))) else None) ∧
       Session.page_manipulator s =
         (if Nat.ltb 0 (length d) then Some (mkPageManipulator (length (managers w))) else None) ∧
       Session.metadata_editor s =
         (if Nat.ltb 0 (length d) then Some (mkMetadataEditor (length (managers w))) else None).
Proof.
  intros Hb. destruct (fs w !! sp) as [[d|b]|] eqn:Hfs.
  - destruct (build_session_data_ok sid fn sp ca lm w d Hfs)
      as (s' & Hb' & _ & _ & _ & _ & _ & Hdm & Hpc & Hed & Hpm & Hme).
    rewrite Hb' in Hb. injection Hb as <- <-. exists d. done.
  - rewrite build_session_data_fail in Hb by (intros d; congruence). discriminate.
  - rewrite build_session_data_fail in Hb by (intros d; congruence). discriminate.
Qed.

(** C10. An entry gets its three helpers exactly when the page count is
    positive; with a page count of zero all three are [None]. A document
    that opens with no pages still makes Resolve and Create succeed and
    cache such an entry. *)
Theorem helpers_only_with_pages :
  (∀ sid fn sp ca lm w s w',
     build_session_data sid fn sp ca lm w = (Ok s, w') →
     (Session.page_count s = 0%nat →
        Session.editor s = None ∧ Session.page_manipulator s = None ∧
        Session.metadata_editor s = None) ∧
     ((0 < Session.page_count s)%nat →
        Session.editor s = Some (mkEditor (Session.document_manager s)) ∧
        Session.page_manipulator s = Some (mkPageManipulator (Session.document_manager s)) ∧
        Session.metadata_editor s = Some (mkMetadataEditor (Session.document_manager s)))) ∧
  (∀ sid w row,
     sessions w !! sid = None → db w !! sid = Some row →
     fs w !! Row.storage_path row = Some (PdfData []) →
     ∃ e w', get_session sid w = (Ok e, w') ∧ sessions w' !! sid = Some e ∧
       Session.page_count e = 0%nat ∧
       Session.editor e = None ∧ Session.page_manipulator e = None ∧
       Session.metadata_editor e = None) ∧
  (∀ fp fn w,
     fs w !! fp = Some (PdfData []) → fp ≠ next_storage_path w fn →
     copy_refused (env w) (next_storage_path w fn) = false →
     insert_fails (env w) (next_session_id w) = false →
     ∃ e w', create_session fp fn w = (Ok (next_session_id w), w') ∧
       sessions w' !! next_session_id w = Some e ∧
       Session.page_count e = 0%nat ∧
       Session.editor e = None ∧ Session.page_manipulator e = None ∧
       Session.metadata_editor e = None).
Proof.
  split; [| split].
  - intros sid fn sp ca lm w s w' Hb.
    destruct (build_session_data_inv _ _ _ _ _ _ _ _ Hb)
      as (d & _ & _ & Hpc & Hdm & Hed & Hpm & Hme).
    rewrite Hed, Hpm, Hme, Hpc, Hdm. split; intros Hn.
    + by rewrite Hn.
    + by destruct (length d); [lia |].
  - intros sid w row He Hdb Hfs. unfold get_session. py_prims. rewrite He. simpl.
    rewrite Hdb. simpl.
    destruct (build_session_data_ok sid (Row.filename row) (Row.storage_path row)
                (Row.created_at row) (Row.last_modified row) w [] Hfs)
      as (e & -> & _ & _ & _ & _ & _ & _ & Hpc & Hed & Hpm & Hme).
    simpl. rewrite lookup_insert_eq. exists e. eexists. split; [reflexivity |].
    simpl. by rewrite lookup_insert_eq.
  - intros fp fn w Hsrc Hne Hacc Hins.
    destruct (create_session_ok fp fn w _ Hsrc Hne Hacc [] eq_refl Hins)
      as (e & w' & Hr & _ & _ & Hs & _ & _ & _ & _ & _ & _ & _ & _ & Hpc & Hed & Hpm & Hme).
    exists e, w'. rewrite Hs, lookup_insert_eq. done.
Qed.

Example create_blank_document :
  ∃ e w', create_session Sample.upload "blank.pdf" Sample.blank = (Ok Sample.sid, w') ∧
    sessions w' !! Sample.sid = Some e ∧
    Session.page_count e = 0%nat ∧ Session.editor e = None ∧
    Session.page_manipulator e = None ∧ Session.metadata_editor e = None ∧
    DocumentManager.document w' (Session.document_manager e) = Some [].
Proof.
  eexists. eexists. split; [vm_compute; reflexivity |].
  split; [vm_compute; reflexivity |]. repeat split.
Qed.

(** C6. The copy-in is outside the [try] whose [finally] removes the
    caller's input. With a 244-character upload name the temp file
    [/tmp/upload_<name>] exists, the storage name is 281 characters long
    and the copy is refused: [create_session] raises and the input file is
    still there. (Once the copy has succeeded, the input is removed in every
    outcome and a failure leaves no copied file, record or entry:
    [create_session_after_copy].) *)
Theorem create_session_copy_refused_keeps_input :
  String.length LongName.name = 244%nat ∧
  fs LongName.world !! LongName.upload = Some (PdfData [1; 2; 3]%nat) ∧
  ∃ w', create_session LongName.upload LongName.name LongName.world
          = (Raise (OSError (next_storage_path LongName.world LongName.name)), w') ∧
        fs w' !! LongName.upload = Some (PdfData [1; 2; 3]%nat).
Proof.
  split; [by vm_compute |]. split; [by vm_compute |].
  eexists. split; [vm_compute; reflexivity | by vm_compute].
Qed.

(** ** Delete *)

Lemma delete_session_cold sid w :
  sessions w !! sid = None →
  delete_session sid w = (Ok tt, emit (EvStoreDelete sid) (set_db (base.delete sid) w)).
Proof. intros He. unfold delete_session. py_prims. by rewrite He. Qed.

(** Delete of a warm session: the entry leaves the cache, the manager is
    closed (when its document is truthy), the content file and the record
    are removed. *)
Lemma delete_session_warm sid w e :
  sessions w !! sid = Some e →
  ∃ w', delete_session sid w = (Ok tt, w') ∧
    sessions w' = base.delete sid (sessions w) ∧
    db w' = base.delete sid (db w) ∧
    fs w' = (if str_truthy (Session.storage_path e)
             then base.delete (Session.storage_path e) (fs w) else fs w) ∧
    (∀ d, DocumentManager.document w (Session.document_manager e) = Some d →
          d ≠ [] →
          DocumentManager.document w' (Session.document_manager e) = None ∧
          EvClose (Session.document_manager e) ∈ trace w').
Proof.
  intros He. unfold delete_session. py_prims. unfold DocumentManager.document.
  destruct e as [eid efn sp h ca lm pc ed pm me]. simpl.
  destruct (managers w !! h) as [[d|]|] eqn:Hd;
    [destruct (DocumentManager.truthy d) eqn:Ht | |];
    (destruct (str_truthy sp) eqn:Hsp; [destruct (fs w !! sp) as [c|] eqn:Hc |]);
    map_steps; (eexists; split; [reflexivity |]); simpl.
  all: repeat split; try done.
  all: try (symmetry; by apply delete_id).
  all: simplify_eq.
  all: try (rewrite list_lookup_insert_eq by (by eapply lookup_lt_Some); done).
  all: try (rewrite !elem_of_app, !list_elem_of_singleton; by eauto).
  all: exfalso; destruct d0; [done | discriminate].
Qed.


(** A warm session over a document without pages: the entry, the file and
    the record go, but the document is falsy, so [close_document] skips the
    close and the manager keeps it. *)
Example delete_blank_session :
  ∃ w1 w2,
    create_session Sample.upload "blank.pdf" Sample.blank = (Ok Sample.sid, w1) ∧
    delete_session Sample.sid w1 = (Ok tt, w2) ∧
    sessions w2 = ∅ ∧ db w2 = ∅ ∧ fs w2 = ∅ ∧
    managers w2 = [Some []].
Proof.
  eexists. eexists. split; [vm_compute; reflexivity |].
  split; [vm_compute; reflexivity |]. repeat split.
Qed.

(** C1. A session that is in the store but not in [sessions] (here: after a
    restart of the process) is deleted without looking up its record: the
    record goes, the content file stays, and no record is left from which
    the reaper could find it. (For a warm session entry, file and record
    all go, [delete_session_warm]; a second call raises nothing and changes
    nothing, [delete_session_twice].) *)
Theorem delete_session_cold_keeps_content_file :
  sessions Sample.restarted !! Sample.sid = None ∧
  (∃ row, db Sample.restarted !! Sample.sid = Some row ∧
          Row.storage_path row = Sample.path) ∧
  fs Sample.restarted !! Sample.path = Some (PdfData [1; 2; 3]%nat) ∧
  ∃ w', delete_session Sample.sid Sample.restarted = (Ok tt, w') ∧
        db w' !! Sample.sid = None ∧
        fs w' !! Sample.path = Some (PdfData [1; 2; 3]%nat).
Proof.
  split; [by vm_compute |]. split; [eexists; split; by vm_compute |].
  split; [by vm_compute |].
  rewrite delete_session_cold by (by vm_compute).
  eexists. split; [reflexivity |]. split; by vm_compute.
Qed.

(** ** The metadata store *)

(** C4, as the code has it. [UPDATE ... WHERE session_id = ?] never raises:
    for an id in the table it sets [last_modified] of that row and keeps
    its other columns; for an id not in the table it changes nothing and
    reports nothing. No other row, file or cache entry is touched. *)
Theorem update_last_modified_spec (sid : string) (ts : Z) (w : World) :
  ∃ w', session_store.update_last_modified sid ts w = (Ok tt, w') ∧
    (db w !! sid = None → db w' = db w) ∧
    (∀ row, db w !! sid = Some row →
       ∃ row', db w' !! sid = Some row' ∧
         Row.last_modified row' = ts ∧
         Row.filename row' = Row.filename row ∧
         Row.storage_path row' = Row.storage_path row ∧
         Row.created_at row' = Row.created_at row) ∧
    (∀ k, k ≠ sid → db w' !! k = db w !! k) ∧
    fs w' = fs w ∧ sessions w' = sessions w.
Proof.
  eexists. split; [reflexivity |]. simpl. repeat split.
  - intros Hdb. apply map_eq. intros k. rewrite lookup_alter.
    case_decide; [subst; by rewrite Hdb | done].
  - intros row Hdb. eexists. rewrite lookup_alter_eq, Hdb. simpl. done.
  - intros k Hk. by rewrite lookup_alter_ne.
Qed.

(** C4, the absent id: in a store without the id the update returns
    normally; it raises nothing. *)
Lemma update_last_modified_absent_counterexample :
  db Sample.fresh !! Sample.sid = None ∧
  ¬ (∃ exc w', session_store.update_last_modified Sample.sid 7 Sample.fresh
                 = (Raise exc, w')).
Proof.
  split; [by vm_compute |]. intros (exc & w' & H). discriminate H.
Qed.

(** ** ReapStale *)

Lemma reap_record_kept cutoff n r w :
  stale cutoff (warm w (SessionRecord.session_id r)) r = false →
  reap_record cutoff n r w = (Ok n, w).
Proof. intros Hs. unfold reap_record. py_prims. unfold warm in Hs. by rewrite Hs. Qed.

(** A stale, cold record: the unlink of its content file is tried, a
    refusal is logged, and the record is deleted in either case. *)
Lemma reap_record_reaped cutoff n r w :
  stale cutoff (warm w (SessionRecord.session_id r)) r = true →
  ∃ w', reap_record cutoff n r w = (Ok (n + 1), w') ∧
    sessions w' = sessions w ∧ env w' = env w ∧
    db w' = base.delete (SessionRecord.session_id r) (db w) ∧
    fs w' = (if unlink_refused (env w) (SessionRecord.storage_path r)
             then fs w else base.delete (SessionRecord.storage_path r) (fs w)) ∧
    (∀ ev, ev ∈ trace w → ev ∈ trace w') ∧
    (unlink_refused (env w) (SessionRecord.storage_path r) = true →
     is_Some (fs w !! SessionRecord.storage_path r) →
     EvLogWarning (SessionRecord.storage_path r) ∈ trace w').
Proof.
  intros Hs. unfold reap_record. py_prims. unfold warm in Hs. rewrite Hs.
  destruct (fs w !! SessionRecord.storage_path r) as [c|] eqn:Hc; map_steps;
    [destruct (unlink_refused (env w) (SessionRecord.storage_path r)) eqn:Hu |];
    map_steps; (eexists; split; [reflexivity |]); simpl.
  - split; [done |]. split; [done |]. split; [done |]. split; [done |]. split.
    + intros ev Hev. rewrite !elem_of_app. auto.
    + intros _ _. rewrite !elem_of_app, !list_elem_of_singleton. auto.
  - split; [done |]. split; [done |]. split; [done |]. split; [done |]. split.
    + intros ev Hev. rewrite !elem_of_app. auto.
    + discriminate.
  - split; [done |]. split; [done |]. split; [done |]. split.
    + destruct (unlink_refused _ _); [done |]. symmetry. by apply delete_id.
    + split; [intros ev Hev; rewrite !elem_of_app; auto |].
      intros _ [? ?]. discriminate.
Qed.

Lemma warm_same_sessions w w' sid : sessions w' = sessions w → warm w' sid = warm w sid.
Proof. unfold warm. by intros ->. Qed.

(** One round of the loop, stale or not. *)
Lemma reap_record_step cutoff n r w :
  ∃ w1 n1, reap_record cutoff n r w = (Ok n1, w1) ∧
    sessions w1 = sessions w ∧ env w1 = env w ∧
    (∀ ev, ev ∈ trace w → ev ∈ trace w1) ∧
    (stale cutoff (warm w (SessionRecord.session_id r)) r = true →
       db w1 = base.delete (SessionRecord.session_id r) (db w) ∧
       fs w1 = (if unlink_refused (env w) (SessionRecord.storage_path r)
                then fs w else base.delete (SessionRecord.storage_path r) (fs w)) ∧
       (unlink_refused (env w) (SessionRecord.storage_path r) = true →
        is_Some (fs w !! SessionRecord.storage_path r) →
        EvLogWarning (SessionRecord.storage_path r) ∈ trace w1)) ∧
    (stale cutoff (warm w (SessionRecord.session_id r)) r = false → w1 = w).
Proof.
  destruct (stale cutoff (warm w (SessionRecord.session_id r)) r) eqn:Hs.
  - destruct (reap_record_reaped cutoff n r w Hs)
      as (w1 & Hr & Hss & Henv & Hdb & Hfs & Htr & Hlog).
    exists w1, (n + 1). split; [done |]. split; [done |]. split; [done |].
    split; [done |]. split; [done | discriminate].
  - exists w, n. rewrite reap_record_kept by done.
    split; [done |]. split; [done |]. split; [done |]. split; [done |].
    split; [discriminate | done].
Qed.

Lemma reap_loop cutoff (l : list SessionRecord.t) :
  ∀ w n, ∃ w' n',
    for_each l n (reap_record cutoff) w = (Ok n', w') ∧
    sessions w' = sessions w ∧ env w' = env w ∧
    (∀ k, db w' !! k = None ∨ db w' !! k = db w !! k) ∧
    (∀ p, fs w' !! p = None ∨ fs w' !! p = fs w !! p) ∧
    (∀ r, r ∈ l → stale cutoff (warm w (SessionRecord.session_id r)) r = true →
          db w' !! SessionRecord.session_id r = None ∧
          (unlink_refused (env w) (SessionRecord.storage_path r) = false →
           fs w' !! SessionRecord.storage_path r = None) ∧
          (unlink_refused (env w) (SessionRecord.storage_path r) = true →
           is_Some (fs w !! SessionRecord.storage_path r) →
           EvLogWarning (SessionRecord.storage_path r) ∈ trace w')) ∧
    (∀ k, (∀ r, r ∈ l → stale cutoff (warm w (SessionRecord.session_id r)) r = true →
                 SessionRecord.session_id r ≠ k) →
          db w' !! k = db w !! k) ∧
    (∀ p, unlink_refused (env w) p = true ∨
          (∀ r, r ∈ l → stale cutoff (warm w (SessionRecord.session_id r)) r = true →
                 SessionRecord.storage_path r ≠ p) →
          fs w' !! p = fs w !! p) ∧
    (∀ ev, ev ∈ trace w → ev ∈ trace w').
Proof.
  induction l as [|r l IH]; intros w n.
  - exists w, n. split; [done |]. split; [done |]. split; [done |].
    split; [auto |]. split; [auto |].
    split; [intros r Hr; exfalso; by eapply not_elem_of_nil |].
    split; [done |]. split; done.
  - destruct (reap_record_step cutoff n r w)
      as (w1 & n1 & Hr & Hss & Henv & Htr & Hyes & Hno).
    destruct (IH w1 n1)
      as (w' & n' & Hloop & Hss' & Henv' & Hdbm & Hfsm & Hgone & Hdbk & Hfsk & Htr').
    rewrite Henv in Hgone, Hfsk.
    assert (Hwarm : ∀ k, warm w1 k = warm w k) by (intros k; by apply warm_same_sessions).
    assert (Hdb1 : ∀ k, db w1 !! k = None ∨ db w1 !! k = db w !! k).
    { intros k. destruct (stale cutoff (warm w (SessionRecord.session_id r)) r) eqn:Hs.
      - destruct (Hyes eq_refl) as (-> & _ & _).
        destruct (decide (SessionRecord.session_id r = k)) as [->|Hne].
        + left. apply lookup_delete_eq.
        + right. by apply lookup_delete_ne.
      - rewrite (Hno eq_refl). by right. }
    assert (Hfs1 : ∀ p, fs w1 !! p = None ∨ fs w1 !! p = fs w !! p).
    { intros p. destruct (stale cutoff (warm w (SessionRecord.session_id r)) r) eqn:Hs.
      - destruct (Hyes eq_refl) as (_ & -> & _).
        destruct (unlink_refused (env w) (SessionRecord.storage_path r)); [by right |].
        destruct (decide (SessionRecord.storage_path r = p)) as [->|Hne].
        + left. apply lookup_delete_eq.
        + right. by apply lookup_delete_ne.
      - rewrite (Hno eq_refl). by right. }
    assert (Hfs1_kept : ∀ p,
              unlink_refused (env w) p = true ∨
              (stale cutoff (warm w (SessionRecord.session_id r)) r = true →
               SessionRecord.storage_path r ≠ p) →
              fs w1 !! p = fs w !! p).
    { intros p Hp. destruct (stale cutoff (warm w (SessionRecord.session_id r)) r) eqn:Hs.
      - destruct (Hyes eq_refl) as (_ & -> & _).
        destruct (unlink_refused (env w) (SessionRecord.storage_path r)) eqn:Hu; [done |].
        apply lookup_delete_ne. destruct Hp as [Hp | Hp]; [| by apply Hp].
        intros <-. congruence.
      - by rewrite (Hno eq_refl). }
    exists w', n'. split; [simpl; unfold bind; by rewrite Hr |].
    split; [congruence |]. split; [congruence |].
    split; [intros k; destruct (Hdbm k) as [->| ->]; auto |].
    split; [intros p; destruct (Hfsm p) as [->| ->]; auto |].
    split; [| split; [| split]].
    + intros r' Hr' Hs. apply elem_of_cons in Hr' as [-> | Hin].
      * destruct (Hyes Hs) as (Hdb & Hfs & Hlog). split; [| split].
        -- destruct (Hdbm (SessionRecord.session_id r)) as [->| ->]; [done |].
           rewrite Hdb. apply lookup_delete_eq.
        -- intros Hu. rewrite Hu in Hfs.
           destruct (Hfsm (SessionRecord.storage_path r)) as [->| ->]; [done |].
           rewrite Hfs. apply lookup_delete_eq.
        -- intros Hu Hthere. apply Htr'. by apply Hlog.
      * rewrite <- Hwarm in Hs. destruct (Hgone r' Hin Hs) as (Hdb & Hfs & Hlog).
        split; [done |]. split; [done |].
        intros Hu Hthere. apply Hlog; [done |]. rewrite Hfs1_kept; [done | by left].
    + intros k Hk. rewrite Hdbk.
      * destruct (stale cutoff (warm w (SessionRecord.session_id r)) r) eqn:Hs.
        -- destruct (Hyes eq_refl) as (-> & _ & _). apply lookup_delete_ne.
           apply Hk; [apply elem_of_cons; by left | done].
        -- by rewrite (Hno eq_refl).
      * intros r' Hr' Hs. apply Hk; [apply elem_of_cons; by right |]. by rewrite <- Hwarm.
    + intros p Hp. rewrite Hfsk.
      * apply Hfs1_kept. destruct Hp as [Hp | Hp]; [by left | right].
        intros Hs. apply Hp; [apply elem_of_cons; by left | done].
      * destruct Hp as [Hp | Hp]; [by left | right].
        intros r' Hr' Hs. apply Hp; [apply elem_of_cons; by right |]. by rewrite <- Hwarm.
    + intros ev Hev. by apply Htr', Htr.
Qed.

Lemma elem_of_list_all w r :
  r ∈ ((λ kv, Row.to_record kv.1 kv.2) <$> map_to_list (db w)) ↔
  ∃ sid row, db w !! sid = Some row ∧ r = Row.to_record sid row.
Proof.
  rewrite list_elem_of_fmap. split.
  - intros ([k row] & -> & Hin). apply elem_of_map_to_list in Hin. simpl. eauto.
  - intros (sid & row & Hrow & ->). exists (sid, row).
    split; [done |]. by apply elem_of_map_to_list.
Qed.

(** The sweep, record by record. *)
Lemma cleanup_effect (w : World) :
  ∃ w', cleanup_stale_sessions w = (Ok tt, w') ∧
    sessions w' = sessions w ∧ env w' = env w ∧
    (∀ sid row, db w !! sid = Some row →
       if stale (cutoff_of w) (warm w sid) (Row.to_record sid row)
       then db w' !! sid = None ∧
            (unlink_refused (env w) (Row.storage_path row) = false →
             fs w' !! Row.storage_path row = None) ∧
            (unlink_refused (env w) (Row.storage_path row) = true →
             is_Some (fs w !! Row.storage_path row) →
             EvLogWarning (Row.storage_path row) ∈ trace w')
       else db w' !! sid = Some row) ∧
    (∀ sid, db w !! sid = None → db w' !! sid = None) ∧
    (∀ p, unlink_refused (env w) p = true ∨
          (∀ sid row, db w !! sid = Some row →
             stale (cutoff_of w) (warm w sid) (Row.to_record sid row) = true →
             Row.storage_path row ≠ p) →
          fs w' !! p = fs w !! p).
Proof.
  unfold cleanup_stale_sessions.
  unfold datetime_now, session_store.list_all, gets, bind at 1 2 3.
  fold (cutoff_of w).
  set (l := (λ kv : string * Row.t, Row.to_record kv.1 kv.2) <$> map_to_list (db w)).
  destruct (reap_loop (cutoff_of w) l w 0)
    as (w1 & n1 & Hloop & Hss & Henv & Hdbm & Hfsm & Hgone & Hdbk & Hfsk & Htr).
  unfold bind. rewrite Hloop.
  set (w' := (when (negb (n1 =? 0)) (logger_info n1) w1).2).
  assert (Hw' : when (negb (n1 =? 0)) (logger_info n1) w1 = (Ok tt, w') ∧
                db w' = db w1 ∧ fs w' = fs w1 ∧ sessions w' = sessions w1 ∧
                env w' = env w1 ∧ (∀ ev, ev ∈ trace w1 → ev ∈ trace w')).
  { unfold w', when, logger_info, modify, ret.
    destruct (negb (n1 =? 0)); simpl; repeat split; try done.
    intros ev Hev. rewrite elem_of_app. by left. }
  destruct Hw' as (-> & Hdb' & Hfs' & Hss' & Henv' & Htr'). clearbody w'.
  exists w'. split; [done |]. rewrite Hdb', Hfs', Hss', Henv'.
  split; [done |]. split; [done |]. split; [| split].
  - intros sid row Hrow.
    destruct (stale (cutoff_of w) (warm w sid) (Row.to_record sid row)) eqn:Hs.
    + destruct (Hgone (Row.to_record sid row)) as (Hdb & Hfs & Hlog);
        [apply elem_of_list_all; eauto | done |].
      simpl in *. split; [done |]. split; [done |].
      intros Hu Hthere. apply Htr'. by apply Hlog.
    + rewrite Hdbk; [done |].
      intros r Hr Hst Heq. apply elem_of_list_all in Hr as (sid' & row' & Hrow' & ->).
      simpl in *. subst sid'. rewrite Hrow in Hrow'. injection Hrow' as <-. congruence.
  - intros sid Hnone. destruct (Hdbm sid) as [->| ->]; done.
  - intros p Hp. apply Hfsk. destruct Hp as [Hp | Hp]; [by left | right].
    intros r Hr Hst.
    apply elem_of_list_all in Hr as (sid & row & Hrow & ->). simpl in *. eauto.
Qed.

(** C2. The reaper always returns and leaves [sessions] alone. A record is
    deleted exactly when its [last_modified] is strictly before
    [now - ttl] and the session is not in [sessions]; every other record
    stays as it was, so a warm session keeps its record whatever its age.
    With the record goes the file at its [storage_path], unless the unlink
    is refused: then the file stays where it is, the refusal is logged (when
    there was a file to unlink) and the record is deleted all the same. A
    path that is not the [storage_path] of a reaped record keeps its
    file. *)
Theorem cleanup_stale_sessions_reaps_exactly (w : World) :
  ∃ w', cleanup_stale_sessions w = (Ok tt, w') ∧
    sessions w' = sessions w ∧
    (∀ sid row, db w !! sid = Some row →
       if (Row.last_modified row <? cutoff_of w) && negb (warm w sid)
       then db w' !! sid = None ∧
            (if unlink_refused (env w) (Row.storage_path row)
             then fs w' !! Row.storage_path row = fs w !! Row.storage_path row ∧
                  (is_Some (fs w !! Row.storage_path row) →
                   EvLogWarning (Row.storage_path row) ∈ trace w')
             else fs w' !! Row.storage_path row = None)
       else db w' !! sid = Some row) ∧
    (∀ sid, db w !! sid = None → db w' !! sid = None) ∧
    (∀ sid row, db w !! sid = Some row → warm w sid = true →
       db w' !! sid = Some row) ∧
    (∀ p, (∀ sid row, db w !! sid = Some row →
             Row.last_modified row < cutoff_of w → warm w sid = false →
             Row.storage_path row ≠ p) →
          fs w' !! p = fs w !! p).
Proof.
  destruct (cleanup_effect w) as (w' & Hc & Hss & _ & Hrows & Hnone & Hfs).
  exists w'. split; [done |]. split; [done |].
  split; [| split; [done |]; split].
  - intros sid row Hrow. specialize (Hrows sid row Hrow).
    unfold stale in Hrows. simpl in Hrows.
    destruct ((Row.last_modified row <? cutoff_of w) && negb (warm w sid)); [| done].
    destruct Hrows as (Hdb & Hgone & Hlog). split; [done |].
    destruct (unlink_refused (env w) (Row.storage_path row)) eqn:Hu.
    + split; [apply Hfs; by left | by apply Hlog].
    + by apply Hgone.
  - intros sid row Hrow Hwarm. specialize (Hrows sid row Hrow).
    unfold stale in Hrows. simpl in Hrows. rewrite Hwarm in Hrows. simpl in Hrows.
    by rewrite andb_false_r in Hrows.
  - intros p Hp. apply Hfs. right. intros sid row Hrow Hst.
    unfold stale in Hst. simpl in Hst. apply andb_true_iff in Hst as [Hlt Hw].
    apply (Hp _ _ Hrow); [lia |]. by destruct (warm w sid).
Qed.

(** C2, the refused unlink: a record that is stale and cold, over a content
    file the file system does not let go. The sweep returns, the record is
    gone, the file is still in the storage directory, and the log has the
    warning. *)
Lemma cleanup_unlink_refused_counterexample :
  db Sample.day_later_locked !! Sample.sid
    = Some (Row.mk "report.pdf" Sample.path 1000 1000) ∧
  1000 < cutoff_of Sample.day_later_locked ∧
  warm Sample.day_later_locked Sample.sid = false ∧
  ∃ w', cleanup_stale_sessions Sample.day_later_locked = (Ok tt, w') ∧
    db w' !! Sample.sid = None ∧
    fs w' !! Sample.path = Some (PdfData [1; 2; 3]%nat) ∧
    trace w' = [EvLogWarning Sample.path; EvStoreDelete Sample.sid; EvLogInfo 1].
Proof.
  split; [by vm_compute |]. split; [by vm_compute |]. split; [by vm_compute |].
  eexists. split; [vm_compute; reflexivity |]. by vm_compute.
Qed.

(** Right after the upload nothing is older than the cutoff. *)
Example reap_too_early :
  ∃ w', cleanup_stale_sessions Sample.restarted = (Ok tt, w') ∧
    db w' = db Sample.restarted ∧ fs w' = fs Sample.restarted ∧ trace w' = [].
Proof. eexists. split; [vm_compute; reflexivity |]. repeat split. Qed.

(** A day later the cold session is reaped: record and content file go. *)
Example reap_cold_session :
  ∃ w', cleanup_stale_sessions Sample.day_later_cold = (Ok tt, w') ∧
    db w' = ∅ ∧ fs w' = ∅ ∧
    trace w' = [EvRemove Sample.path; EvStoreDelete Sample.sid; EvLogInfo 1].
Proof. eexists. split; [vm_compute; reflexivity |]. repeat split. Qed.

(** The same day later, but the session is in the cache: nothing happens. *)
Example reap_spares_warm_session :
  ∃ w', cleanup_stale_sessions Sample.day_later_warm = (Ok tt, w') ∧
    db w' = db Sample.day_later_warm ∧ fs w' = fs Sample.day_later_warm ∧ trace w' = [].
Proof. eexists. split; [vm_compute; reflexivity |]. repeat split. Qed.

(** ** Persist *)

Lemma temp_path_ne (sp : string) : temp_path_of sp ≠ sp.
Proof.
  unfold temp_path_of. induction sp as [|a sp IH]; [discriminate |].
  intros [= H]. by apply IH.
Qed.

(** The save failed: the temporary file is gone, whether the failed save
    left one or an earlier one was lying there, and nothing else moved. *)
Lemma persist_save_fails sid w e exc w1 :
  sessions w !! sid = Some e →
  DocumentManager.save_pdf (Session.document_manager e)
    (temp_path_of (Session.storage_path e)) w = (Raise exc, w1) →
  ∃ w', persist_session_document sid w = (Raise exc, w') ∧
    fs w' = base.delete (temp_path_of (Session.storage_path e)) (fs w) ∧
    sessions w' = sessions w ∧ db w' = db w ∧ managers w' = managers w ∧
    (∀ ev, ev ∈ trace w' → ev ∈ trace w ∨
       ev = EvSaveFailed (Session.document_manager e) (temp_path_of (Session.storage_path e)) ∨
       ev = EvRemove (temp_path_of (Session.storage_path e))).
Proof.
  intros He Hsave. unfold persist_session_document.
  unfold bind at 1. rewrite (get_session_cached _ _ _ He).
  fold (temp_path_of (Session.storage_path e)).
  set (tmp := temp_path_of (Session.storage_path e)) in *.
  set (dm := Session.document_manager e) in *.
  unfold bind at 1. unfold try_except at 1. unfold bind at 1. rewrite Hsave.
  unfold DocumentManager.save_pdf in Hsave.
  destruct (DocumentManager.document w dm) as [d|].
  - destruct (save_outcome (env w) d tmp) as [|[data|]]; [discriminate | |];
      injection Hsave as <- <-; py_prims; map_steps.
    + eexists. split; [reflexivity |]. simpl. repeat split.
      * apply map_eq. intros p. destruct (decide (p = tmp)) as [->|Hp].
        -- by rewrite !lookup_delete_eq.
        -- by rewrite !lookup_delete_ne, lookup_insert_ne.
      * intros ev. rewrite !elem_of_app, !list_elem_of_singleton. tauto.
    + destruct (fs w !! tmp) as [c|] eqn:Hc; map_steps;
        (eexists; split; [reflexivity |]); simpl; repeat split;
        try (symmetry; by apply delete_id);
        intros ev; rewrite !elem_of_app, !list_elem_of_singleton; tauto.
  - injection Hsave as <- <-; py_prims.
    destruct (fs w !! tmp) as [c|] eqn:Hc; map_steps;
      (eexists; split; [reflexivity |]); simpl; repeat split;
      try (symmetry; by apply delete_id);
      intros ev; rewrite ?elem_of_app, ?list_elem_of_singleton; tauto.
Qed.

(** The save succeeded: the rename puts the saved document at the storage
    path, then the entry and, last, the record are updated. *)
Lemma persist_save_ok sid w e w1 :
  sessions w !! sid = Some e →
  DocumentManager.save_pdf (Session.document_manager e)
    (temp_path_of (Session.storage_path e)) w = (Ok tt, w1) →
  ∃ d w',
    DocumentManager.document w (Session.document_manager e) = Some d ∧
    persist_session_document sid w =
      (Ok (Session.set_page_count (length d) (Session.set_last_modified (clock w) e)), w') ∧
    fs w' = <[Session.storage_path e := PdfData d]>
              (base.delete (temp_path_of (Session.storage_path e)) (fs w)) ∧
    sessions w' = <[sid := Session.set_page_count (length d)
                             (Session.set_last_modified (clock w) e)]> (sessions w) ∧
    db w' = alter (Row.set_last_modified (clock w)) sid (db w) ∧
    managers w' = managers w ∧
    trace w' = trace w ++ [EvSave (Session.document_manager e)
                             (temp_path_of (Session.storage_path e));
                           EvReplace (temp_path_of (Session.storage_path e))
                             (Session.storage_path e);
                           EvStoreUpdate sid (clock w)].
Proof.
  intros He Hsave. unfold persist_session_document.
  unfold bind at 1. rewrite (get_session_cached _ _ _ He).
  fold (temp_path_of (Session.storage_path e)).
  set (tmp := temp_path_of (Session.storage_path e)) in *.
  set (dm := Session.document_manager e) in *.
  unfold bind at 1. unfold try_except at 1. unfold bind at 1. rewrite Hsave.
  unfold DocumentManager.save_pdf in Hsave.
  destruct (DocumentManager.document w dm) as [d|] eqn:Hd; [| discriminate].
  destruct (save_outcome (env w) d tmp) as [|leftover]; [| discriminate].
  injection Hsave as <-. py_prims. unfold DocumentManager.document in *.
  map_steps.
  exists d. eexists. split; [done |]. split; [reflexivity |]. simpl.
  repeat split.
  - apply map_eq. intros p. destruct (decide (p = Session.storage_path e)) as [->|Hp].
    + by rewrite !lookup_insert_eq.
    + rewrite !(lookup_insert_ne _ (Session.storage_path e)) by done.
      destruct (decide (p = tmp)) as [->|Hp'].
      * by rewrite !lookup_delete_eq.
      * by rewrite !lookup_delete_ne, lookup_insert_ne.
  - apply map_eq. intros k. destruct (decide (k = sid)) as [->|Hk].
    + by rewrite lookup_insert_eq, !lookup_alter_eq, He.
    + by rewrite lookup_insert_ne, !lookup_alter_ne.
  - by rewrite <- !app_assoc.
Qed.

(** C3. For a warm session, Persist saves the entry's manager to
    [storage_path + ".tmp"]. If that save raises, Persist raises the same
    exception, no file is left at the temporary path, and the file at
    [storage_path], every other file, the cache (so the entry's
    [last_modified] and [page_count]) and the store (so the record's
    [last_modified]) are as before. If the save succeeds, the temporary file
    is renamed over [storage_path], the entry gets the new [last_modified]
    and page count, and the record's [last_modified] is written as the last
    effect, after the rename. *)
Theorem persist_session_document_atomic (sid : string) (w : World) (e : Session.t) :
  sessions w !! sid = Some e →
  (∀ exc w1,
     DocumentManager.save_pdf (Session.document_manager e)
       (temp_path_of (Session.storage_path e)) w = (Raise exc, w1) →
     ∃ w', persist_session_document sid w = (Raise exc, w') ∧
       fs w' !! temp_path_of (Session.storage_path e) = None ∧
       fs w' !! Session.storage_path e = fs w !! Session.storage_path e ∧
       (∀ p, p ≠ temp_path_of (Session.storage_path e) → fs w' !! p = fs w !! p) ∧
       sessions w' = sessions w ∧ db w' = db w ∧
       (∀ src ts, EvReplace src (Session.storage_path e) ∈ trace w' ∨
                  EvStoreUpdate sid ts ∈ trace w' →
                  EvReplace src (Session.storage_path e) ∈ trace w ∨
                  EvStoreUpdate sid ts ∈ trace w)) ∧
  (∀ w1,
     DocumentManager.save_pdf (Session.document_manager e)
       (temp_path_of (Session.storage_path e)) w = (Ok tt, w1) →
     ∃ d e' w',
       DocumentManager.document w (Session.document_manager e) = Some d ∧
       persist_session_document sid w = (Ok e', w') ∧
       fs w' !! Session.storage_path e = Some (PdfData d) ∧
       fs w' !! temp_path_of (Session.storage_path e) = None ∧
       sessions w' !! sid = Some e' ∧
       Session.last_modified e' = clock w ∧ Session.page_count e' = length d ∧
       Session.storage_path e' = Session.storage_path e ∧
       db w' = alter (Row.set_last_modified (clock w)) sid (db w) ∧
       trace w' = trace w ++ [EvSave (Session.document_manager e)
                                (temp_path_of (Session.storage_path e));
                              EvReplace (temp_path_of (Session.storage_path e))
                                (Session.storage_path e);
                              EvStoreUpdate sid (clock w)]).
Proof.
  intros He. split.
  - intros exc w1 Hsave.
    destruct (persist_save_fails sid w e exc w1 He Hsave)
      as (w' & Hp & Hfs & Hs & Hdb & _ & Htr).
    exists w'. split; [done |]. rewrite Hfs.
    split; [apply lookup_delete_eq |].
    split; [apply lookup_delete_ne, temp_path_ne |].
    split; [intros p Hne; by apply lookup_delete_ne |].
    split; [done |]. split; [done |].
    intros src ts [Hin | Hin]; apply Htr in Hin as [Hin | [Hin | Hin]];
      auto; discriminate.
  - intros w1 Hsave.
    destruct (persist_save_ok sid w e w1 He Hsave)
      as (d & w' & Hd & Hp & Hfs & Hs & Hdb & _ & Htr).
    exists d. eexists. exists w'. split; [done |]. split; [exact Hp |].
    rewrite Hfs, Hs. rewrite !lookup_insert_eq.
    rewrite lookup_insert_ne by (intros Heq; by apply (temp_path_ne (Session.storage_path e))).
    rewrite lookup_delete_eq. done.
Qed.

Lemma persist_session_document_atomic_witness :
  sessions Sample.created !! Sample.sid = Some Sample.entry ∧
  DocumentManager.save_pdf 0 (temp_path_of Sample.path) Sample.created
    = (Ok tt, (DocumentManager.save_pdf 0 (temp_path_of Sample.path) Sample.created).2) ∧
  ∃ d e' w',
    DocumentManager.document Sample.created 0 = Some d ∧
    persist_session_document Sample.sid Sample.created = (Ok e', w') ∧
    fs w' !! Sample.path = Some (PdfData d) ∧
    fs w' !! temp_path_of Sample.path = None ∧
    sessions w' !! Sample.sid = Some e' ∧
    Session.last_modified e' = 1000 ∧ Session.page_count e' = length d ∧
    Session.storage_path e' = Sample.path ∧
    db w' = alter (Row.set_last_modified 1000) Sample.sid (db Sample.created) ∧
    trace w' = trace Sample.created ++
                 [EvSave 0 (temp_path_of Sample.path);
                  EvReplace (temp_path_of Sample.path) Sample.path;
                  EvStoreUpdate Sample.sid 1000].
Proof.
  assert (He : sessions Sample.created !! Sample.sid = Some Sample.entry)
    by (vm_compute; reflexivity).
  assert (Hsave : DocumentManager.save_pdf 0 (temp_path_of Sample.path) Sample.created
            = (Ok tt, (DocumentManager.save_pdf 0 (temp_path_of Sample.path) Sample.created).2))
    by (vm_compute; reflexivity).
  split; [exact He |]. split; [exact Hsave |].
  exact (proj2 (persist_session_document_atomic Sample.sid Sample.created Sample.entry He)
           _ Hsave).
Defined.

(** A save that breaks off and leaves a truncated temporary file: Persist
    raises [PDFSaveError]; content file, entry and record are untouched. *)
Example persist_on_full_disk :
  ∃ w', persist_session_document Sample.sid Sample.disk_full
          = (Raise (PDFSaveError (temp_path_of Sample.path)), w') ∧
    fs w' = fs Sample.disk_full ∧ sessions w' = sessions Sample.disk_full ∧
    db w' = db Sample.disk_full ∧
    trace w' = [EvSaveFailed 0 (temp_path_of Sample.path);
                EvRemove (temp_path_of Sample.path)].
Proof. eexists. split; [vm_compute; reflexivity |]. repeat split; by vm_compute. Qed.

(** ** Two calls of Resolve for the same cold session *)




(** After a restart: the first call opens the content file, the second
    finds the entry. *)
Example resolves_one_after_the_other :
  ∃ e w1,
    get_session Sample.sid Sample.restarted = (Ok e, w1) ∧
    get_session Sample.sid w1 = (Ok e, w1) ∧
    managers w1 = [Some [1; 2; 3]%nat] ∧
    trace w1 = [EvOpen Sample.path 0].
Proof.
  eexists. eexists. split; [vm_compute; reflexivity |].
  split; [vm_compute; reflexivity | by vm_compute].
Qed.

(** * More of the code *)

(** ** The store: [save], [get], [delete], [list_all] *)

Lemma row_record_round_trip (r : SessionRecord.t) :
  Row.to_record (SessionRecord.session_id r) (Row.of_record r) = r.
Proof. by destruct r. Qed.

Lemma record_row_round_trip (sid : string) (row : Row.t) :
  Row.of_record (Row.to_record sid row) = row.
Proof. by destruct row. Qed.

(** X1. A record that was saved is the record [get] returns for its id,
    whatever the table held for that id before (insert or replace); the
    rows of other ids, the files and the cache are not touched. *)
Theorem store_save_then_get (record : SessionRecord.t) (w : World) :
  insert_fails (env w) (SessionRecord.session_id record) = false →
  ∃ w1, session_store.save record w = (Ok tt, w1) ∧
    session_store.get (SessionRecord.session_id record) w1 = (Ok (Some record), w1) ∧
    (∀ k, k ≠ SessionRecord.session_id record →
       (session_store.get k w1).1 = (session_store.get k w).1) ∧
    fs w1 = fs w ∧ sessions w1 = sessions w.
Proof.
  intros Hins. unfold session_store.save, session_store.get, gets. rewrite Hins.
  eexists. split; [reflexivity |]. simpl. split; [| split; [| done]].
  - rewrite lookup_insert_eq. simpl. by rewrite row_record_round_trip.
  - intros k Hk. by rewrite lookup_insert_ne.
Qed.

Lemma store_save_then_get_witness :
  insert_fails (env Sample.created) "b2" = false ∧
  ∃ w1, session_store.save (SessionRecord.mk "b2" "x.pdf" "/srv/app/storage/b2_x.pdf" 7 9)
          Sample.created = (Ok tt, w1) ∧
    session_store.get "b2" w1
      = (Ok (Some (SessionRecord.mk "b2" "x.pdf" "/srv/app/storage/b2_x.pdf" 7 9)), w1).
Proof.
  assert (H : insert_fails (env Sample.created) "b2" = false) by (vm_compute; reflexivity).
  split; [exact H |].
  destruct (store_save_then_get
              (SessionRecord.mk "b2" "x.pdf" "/srv/app/storage/b2_x.pdf" 7 9)
              Sample.created H) as (w1 & H1 & H2 & _).
  exists w1. split; [exact H1 | exact H2].
Defined.

(** X2. [list_all] returns every stored record once: the ids in the list
    are pairwise distinct, there are as many records as rows, and a record
    is in the list exactly when [get] returns it for its id. *)
Theorem store_list_all_exact (w : World) :
  ∃ records, session_store.list_all w = (Ok records, w) ∧
    NoDup (SessionRecord.session_id <$> records) ∧
    length records = size (db w) ∧
    (∀ r, r ∈ records ↔
          session_store.get (SessionRecord.session_id r) w = (Ok (Some r), w)).
Proof.
  eexists. split; [reflexivity |]. split; [| split].
  - rewrite <- list_fmap_compose.
    assert (Heq : (SessionRecord.session_id ∘ (λ kv : string * Row.t, Row.to_record kv.1 kv.2))
                  <$> map_to_list (db w) = (map_to_list (db w)).*1)
      by (apply list_fmap_ext; by intros _ [k row] _).
    rewrite Heq. apply NoDup_fst_map_to_list.
  - by rewrite length_fmap, length_map_to_list.
  - intros r. rewrite elem_of_list_all. unfold session_store.get, gets. split.
    + intros (sid & row & Hrow & ->). simpl. by rewrite Hrow.
    + intros [= Hr]. destruct (db w !! SessionRecord.session_id r) as [row|] eqn:Hrow;
        [| discriminate].
      injection Hr as Hr. eauto.
Qed.

(** X3. [delete] never raises. Afterwards [get] finds nothing for the id and
    the rows of the other ids are as before; deleting an id that has no row
    leaves the table as it is, so a second delete changes nothing. *)
Theorem store_delete_idempotent (sid : string) (w : World) :
  ∃ w1, session_store.delete sid w = (Ok tt, w1) ∧
    session_store.get sid w1 = (Ok None, w1) ∧
    (∀ k, k ≠ sid → (session_store.get k w1).1 = (session_store.get k w).1) ∧
    (db w !! sid = None → db w1 = db w) ∧
    (∃ w2, session_store.delete sid w1 = (Ok tt, w2) ∧ db w2 = db w1) ∧
    fs w1 = fs w ∧ sessions w1 = sessions w.
Proof.
  eexists. split; [reflexivity |]. unfold session_store.get, gets. simpl.
  split; [by rewrite lookup_delete_eq |].
  split; [intros k Hk; by rewrite lookup_delete_ne |].
  split; [intros Hnone; by apply delete_id |].
  split; [| done].
  eexists. split; [reflexivity |]. simpl. apply delete_id, lookup_delete_eq.
Qed.

(** ** [DocumentManager] *)

(** X4. A manager that has not loaded anything holds no document, and
    [save_pdf] on it raises [InvalidOperationError] without writing a file;
    managers created before are not affected. *)
Theorem new_manager_has_no_document (path : string) (w : World) :
  ∃ self w1, DocumentManager.new w = (Ok self, w1) ∧
    DocumentManager.get_document self w1 = (Ok None, w1) ∧
    DocumentManager.save_pdf self path w1
      = (Raise (InvalidOperationError "No document is currently loaded."), w1) ∧
    fs w1 = fs w ∧
    (∀ h, (h < length (managers w))%nat →
          DocumentManager.document w1 h = DocumentManager.document w h).
Proof.
  eexists. eexists. split; [reflexivity |].
  unfold DocumentManager.get_document, DocumentManager.save_pdf,
    DocumentManager.document, gets. simpl.
  rewrite lookup_at_end. simpl. repeat split.
  intros h Hh. by rewrite lookup_app_l.
Qed.

(** X5. [close_document] on a manager whose document has pages: afterwards
    [get_document] is [None], [save_pdf] raises [InvalidOperationError] and
    writes nothing, and closing again does nothing and raises nothing; the
    other managers and the files are as before. *)
Theorem close_document_releases (self : nat) (path : string) (w : World) (d : Document) :
  DocumentManager.document w self = Some d → d ≠ [] →
  ∃ w1, DocumentManager.close_document self w = (Ok tt, w1) ∧
    DocumentManager.get_document self w1 = (Ok None, w1) ∧
    DocumentManager.save_pdf self path w1
      = (Raise (InvalidOperationError "No document is currently loaded."), w1) ∧
    DocumentManager.close_document self w1 = (Ok tt, w1) ∧
    fs w1 = fs w ∧ sessions w1 = sessions w ∧
    (∀ h, h ≠ self → DocumentManager.document w1 h = DocumentManager.document w h).
Proof.
  intros Hd Hne.
  assert (Hlt : (self < length (managers w))%nat).
  { unfold DocumentManager.document in Hd.
    destruct (managers w !! self) eqn:E; [by eapply lookup_lt_Some | discriminate]. }
  unfold DocumentManager.close_document. rewrite Hd.
  assert (Ht : DocumentManager.truthy d = true) by (by destruct d).
  rewrite Ht. eexists. split; [reflexivity |].
  unfold DocumentManager.get_document, DocumentManager.save_pdf,
    DocumentManager.document, gets. simpl.
  rewrite list_lookup_insert_eq by done. simpl. repeat split.
  intros h Hh. by rewrite list_lookup_insert_ne.
Qed.

Lemma close_document_releases_witness :
  DocumentManager.document Sample.created 0 = Some [1; 2; 3]%nat ∧
  ∃ w1, DocumentManager.close_document 0 Sample.created = (Ok tt, w1) ∧
    DocumentManager.get_document 0 w1 = (Ok None, w1) ∧
    DocumentManager.save_pdf 0 "out.pdf" w1
      = (Raise (InvalidOperationError "No document is currently loaded."), w1).
Proof.
  assert (H : DocumentManager.document Sample.created 0 = Some [1; 2; 3]%nat)
    by (vm_compute; reflexivity).
  split; [exact H |].
  destruct (close_document_releases 0 "out.pdf" Sample.created [1; 2; 3]%nat H
              ltac:(discriminate)) as (w1 & H1 & H2 & H3 & _).
  exists w1. split; [exact H1 |]. split; [exact H2 | exact H3].
Defined.


(** ** Create: cleanup and atomicity *)

Lemma entry_row_eta (row : Row.t) (e : Session.t) :
  Session.filename e = Row.filename row →
  Session.storage_path e = Row.storage_path row →
  Session.created_at e = Row.created_at row →
  Session.last_modified e = Row.last_modified row →
  entry_row e = row.
Proof. unfold entry_row. intros -> -> -> ->. by destruct row. Qed.

(** What [create_session] does to store and cache, outcome by outcome. *)
Lemma create_session_store_cache fp fn w :
  (∃ exc w', create_session fp fn w = (Raise exc, w') ∧
     db w' = db w ∧ sessions w' = sessions w ∧
     (∀ h, (h < length (managers w))%nat → managers w' !! h = managers w !! h)) ∨
  (∃ e w', create_session fp fn w = (Ok (next_session_id w), w') ∧
     db w' = <[next_session_id w := entry_row e]> (db w) ∧
     sessions w' = <[next_session_id w := e]> (sessions w) ∧
     Session.id e = next_session_id w ∧
     Session.document_manager e = length (managers w) ∧
     (∃ d, managers w' = managers w ++ [Some d])).
Proof.
  destruct (create_session_cases fp fn w)
    as [[exc Hcopy] | (data & Hsrc & Hne & Hacc & [Hraw | [(d & -> & Hins) | (d & -> & Hins)]])].
  - apply create_session_copy_fails in Hcopy as [Hr _]. left. eauto 10.
  - left.
    destruct (create_session_load_fails fp fn w data Hsrc Hne Hacc Hraw)
      as (w' & Hr & _ & Hdb & Hs & _).
    exists (PDFLoadError (next_storage_path w fn)), w'.
    split; [exact Hr |]. split; [done |]. split; [done |].
    revert Hr. unfold create_session. py_prims. simpl. fold (next_session_id w). fold (next_storage_path w fn).
    rewrite Hsrc, bool_decide_eq_false_2, Hacc by done.
    rewrite build_session_data_fail
      by (simpl; rewrite lookup_insert_eq; intros d [= ->]; by apply (Hraw d)).
    map_steps. intros [= <-] h Hh. simpl. by rewrite lookup_app_l.
  - left.
    destruct (create_session_insert_fails fp fn w _ Hsrc Hne Hacc d eq_refl Hins)
      as (w' & Hr & _ & Hdb & Hs & _).
    exists (sqlite3_Error (next_session_id w)), w'.
    split; [exact Hr |]. split; [done |]. split; [done |].
    revert Hr. unfold create_session. py_prims. simpl. fold (next_session_id w). fold (next_storage_path w fn).
    rewrite Hsrc, bool_decide_eq_false_2, Hacc by done.
    match goal with |- context [build_session_data ?a ?b ?c ?x ?y ?w1] =>
      destruct (build_session_data_ok a b c x y w1 d) as (e & -> & _)
    end; [simpl; by rewrite lookup_insert_eq |].
    simpl. rewrite Hins. map_steps. intros [= <-] h Hh. simpl. by rewrite lookup_app_l.
  - right.
    destruct (create_session_ok fp fn w _ Hsrc Hne Hacc d eq_refl Hins)
      as (e & w' & Hr & _ & Hdb & Hs & Hman & _ & Hid & Hfn & Hsp & Hca & Hlm & Hdm & _).
    exists e, w'. split; [exact Hr |]. rewrite Hdb, Hs. repeat split; try done.
    + f_equal. symmetry. by apply entry_row_eta.
    + eauto.
Qed.



(** The upload that does not open: Create raises [PDFLoadError] and every
    file it touched is gone. *)
Example create_from_garbage :
  ∃ w', create_session Sample.upload "junk.pdf" More.garbage
          = (Raise (PDFLoadError (next_storage_path More.garbage "junk.pdf")), w') ∧
    fs w' = ∅ ∧ db w' = ∅ ∧ sessions w' = ∅.
Proof. eexists. split; [vm_compute; reflexivity |]. repeat split. Qed.


(** ** Delete *)


(** X10. For a cached session whose document has pages and whose content
    file is there, Delete closes the document first, removes the file
    second and deletes the record last. *)
Theorem delete_session_order (sid : string) (w : World) (e : Session.t) (d : Document)
    (data : FileData) :
  sessions w !! sid = Some e →
  DocumentManager.document w (Session.document_manager e) = Some d → d ≠ [] →
  fs w !! Session.storage_path e = Some data → Session.storage_path e ≠ "" →
  ∃ w', delete_session sid w = (Ok tt, w') ∧
    trace w' = trace w ++ [EvClose (Session.document_manager e);
                           EvRemove (Session.storage_path e);
                           EvStoreDelete sid] ∧
    DocumentManager.document w' (Session.document_manager e) = None.
Proof.
  intros He Hd Hne Hfs Hsp.
  assert (Hlt : (Session.document_manager e < length (managers w))%nat).
  { unfold DocumentManager.document in Hd.
    destruct (managers w !! Session.document_manager e) eqn:E;
      [by eapply lookup_lt_Some | discriminate]. }
  unfold delete_session. py_prims. rewrite He. simpl. rewrite He. simpl.
  change (DocumentManager.document (set_sessions (base.delete sid) w)
            (Session.document_manager e))
    with (DocumentManager.document w (Session.document_manager e)).
  rewrite Hd. replace (DocumentManager.truthy d) with true by (by destruct d).
  unfold str_truthy. destruct (String.eqb_spec (Session.storage_path e) ""); [done |].
  simpl. rewrite Hfs. simpl. rewrite Hfs.
  eexists. split; [reflexivity |]. simpl. split; [by rewrite <- !app_assoc |].
  unfold DocumentManager.document. simpl. by rewrite list_lookup_insert_eq.
Qed.

Lemma delete_session_order_witness :
  sessions Sample.created !! Sample.sid = Some Sample.entry ∧
  ∃ w', delete_session Sample.sid Sample.created = (Ok tt, w') ∧
    trace w' = trace Sample.created ++ [EvClose 0; EvRemove Sample.path;
                                        EvStoreDelete Sample.sid] ∧
    DocumentManager.document w' 0 = None.
Proof.
  assert (H : sessions Sample.created !! Sample.sid = Some Sample.entry)
    by (vm_compute; reflexivity).
  split; [exact H |].
  exact (delete_session_order Sample.sid Sample.created Sample.entry [1; 2; 3]%nat
           (PdfData [1; 2; 3]%nat) H ltac:(vm_compute; reflexivity) ltac:(discriminate)
           ltac:(vm_compute; reflexivity) ltac:(discriminate)).
Defined.


(** ** Resolve: what it leaves alone *)

(** Every run of [get_session]: a hit, an unknown id, a hydration or a
    content file that does not open. *)
Lemma get_session_cases sid w :
  (∃ e, sessions w !! sid = Some e ∧ get_session sid w = (Ok e, w)) ∨
  (sessions w !! sid = None ∧ db w !! sid = None ∧
     get_session sid w = (Raise not_found, w)) ∨
  (∃ row d e, sessions w !! sid = None ∧ db w !! sid = Some row ∧
     fs w !! Row.storage_path row = Some (PdfData d) ∧
     get_session sid w
       = (Ok e, set_sessions <[sid := e]> (opened (Row.storage_path row) d w)) ∧
     Session.id e = sid ∧ entry_row e = row ∧
     Session.document_manager e = length (managers w) ∧
     Session.page_count e = length d) ∨
  (∃ row, sessions w !! sid = None ∧ db w !! sid = Some row ∧
     get_session sid w
       = (Raise (PDFLoadError (Row.storage_path row)),
          set_managers (λ l, l ++ [None]) w)).
Proof.
  destruct (sessions w !! sid) as [e|] eqn:He.
  { left. exists e. split; [done |]. by apply get_session_cached. }
  right. destruct (db w !! sid) as [row|] eqn:Hdb.
  2: { left. split; [done |]. split; [done |]. by apply get_session_missing. }
  right. destruct (fs w !! Row.storage_path row) as [[d|b]|] eqn:Hfs.
  - left. destruct (get_session_hydrate sid w row d He Hdb Hfs)
      as (e & Hr & Hid & Hfn & Hsp & Hca & Hlm & Hdm & Hpc).
    exists row, d, e. repeat split; try done. by apply entry_row_eta.
  - right. exists row. repeat split; try done.
    apply get_session_unloadable; try done. intros d; congruence.
  - right. exists row. repeat split; try done.
    apply get_session_unloadable; try done. intros d; congruence.
Qed.

(** X12. Resolve never writes to the durable state: whatever its outcome,
    files and records are as before, the cache changes at most at the
    resolved id, and the managers that existed keep their documents. *)
Theorem get_session_reads_only (sid : string) (w : World) :
  let '(r, w') := get_session sid w in
  fs w' = fs w ∧ db w' = db w ∧
  (∀ k, k ≠ sid → sessions w' !! k = sessions w !! k) ∧
  (∀ h, (h < length (managers w))%nat → managers w' !! h = managers w !! h) ∧
  (∀ e, sessions w !! sid = Some e → w' = w ∧ r = Ok e).
Proof.
  destruct (get_session_cases sid w)
    as [(e & He & ->) | [(He & _ & ->) | [(row & d & e & He & _ & _ & -> & _) | (row & He & _ & ->)]]];
    simpl; repeat split; try done;
    try (intros; congruence);
    try (intros k Hk; by rewrite lookup_insert_ne);
    try (intros h Hh; by rewrite lookup_app_l).
Qed.

Lemma get_session_ok_cached sid w w1 e :
  get_session sid w = (Ok e, w1) → sessions w1 !! sid = Some e.
Proof.
  intros Hg.
  destruct (get_session_cases sid w)
    as [(e' & He & Hr) | [(_ & _ & Hr) | [(row & d & e' & _ & _ & _ & Hr & _) | (row & _ & _ & Hr)]]];
    rewrite Hr in Hg; try discriminate; injection Hg as <- <-; [done |].
  simpl. apply lookup_insert_eq.
Qed.

(** X13. Resolve hydrates once: after a Resolve that returned an entry, a
    second Resolve of the same id returns the same entry and changes
    nothing, so it opens no second document. *)
Theorem get_session_twice (sid : string) (w w1 : World) (e : Session.t) :
  get_session sid w = (Ok e, w1) →
  sessions w1 !! sid = Some e ∧ get_session sid w1 = (Ok e, w1).
Proof.
  intros Hg. pose proof (get_session_ok_cached _ _ _ _ Hg) as He.
  split; [done |]. by apply get_session_cached.
Qed.

Lemma get_session_twice_witness :
  get_session Sample.sid Sample.restarted
    = (Ok Sample.entry, (get_session Sample.sid Sample.restarted).2) ∧
  get_session Sample.sid (get_session Sample.sid Sample.restarted).2
    = (Ok Sample.entry, (get_session Sample.sid Sample.restarted).2).
Proof.
  assert (H : get_session Sample.sid Sample.restarted
              = (Ok Sample.entry, (get_session Sample.sid Sample.restarted).2))
    by (vm_compute; reflexivity).
  split; [exact H |].
  exact (proj2 (get_session_twice Sample.sid Sample.restarted _ Sample.entry H)).
Defined.

(** ** Persist: resolution, durability, frame *)

Lemma persist_after_resolve sid w :
  (∀ exc w1, get_session sid w = (Raise exc, w1) →
     persist_session_document sid w = (Raise exc, w1)) ∧
  (∀ e w1, get_session sid w = (Ok e, w1) →
     persist_session_document sid w = persist_session_document sid w1).
Proof.
  split.
  - intros exc w1 Hg. unfold persist_session_document. unfold bind at 1. by rewrite Hg.
  - intros e w1 Hg. pose proof (get_session_ok_cached _ _ _ _ Hg) as He.
    unfold persist_session_document. unfold bind at 1. rewrite Hg.
    symmetry. unfold bind at 1. by rewrite (get_session_cached _ _ _ He).
Qed.

(** X14. Persist begins with Resolve. When Resolve raises (the 404 for an
    unknown id, [PDFLoadError] for a content file that does not open),
    Persist raises the same exception with the same effects and saves
    nothing; in particular Persist of an unknown id changes nothing at all.
    When Resolve returns, Persist goes on as for the warm session Resolve
    produced, so a cold session is hydrated and then persisted. *)
Theorem persist_resolves_first (sid : string) (w : World) :
  (let '(r, w1) := get_session sid w in
   match r with
   | Raise exc => persist_session_document sid w = (Raise exc, w1)
   | Ok e => sessions w1 !! sid = Some e ∧
             persist_session_document sid w = persist_session_document sid w1
   end) ∧
  (sessions w !! sid = None → db w !! sid = None →
   persist_session_document sid w = (Raise not_found, w)).
Proof.
  destruct (persist_after_resolve sid w) as [Hraise Hok]. split.
  - destruct (get_session sid w) as [[e|exc] w1] eqn:Hg.
    + split; [by eapply get_session_ok_cached | by eapply Hok].
    + by apply Hraise.
  - intros He Hdb. apply Hraise. by apply get_session_missing.
Qed.

Lemma save_pdf_saved self path w d :
  DocumentManager.document w self = Some d →
  save_outcome (env w) d path = Saved →
  DocumentManager.save_pdf self path w
    = (Ok tt, emit (EvSave self path) (set_fs <[path := PdfData d]> w)).
Proof. intros Hd Hs. unfold DocumentManager.save_pdf. by rewrite Hd, Hs. Qed.

(** X15. What was persisted survives the loss of the cache. After a Persist
    that went through, in any later world with the same files and records
    in which the session is no longer cached (a restart), Resolve hydrates
    an entry over the document as it was persisted: same pages, and the
    [last_modified] of the Persist. *)
Theorem persist_survives_restart (sid : string) (w : World) (e : Session.t)
    (row : Row.t) (d : Document) :
  sessions w !! sid = Some e →
  db w !! sid = Some row →
  Row.storage_path row = Session.storage_path e →
  DocumentManager.document w (Session.document_manager e) = Some d →
  save_outcome (env w) d (temp_path_of (Session.storage_path e)) = Saved →
  ∃ e1 w1, persist_session_document sid w = (Ok e1, w1) ∧
    ∀ w2, fs w2 = fs w1 → db w2 = db w1 → sessions w2 !! sid = None →
      ∃ e2 w3, get_session sid w2 = (Ok e2, w3) ∧
        DocumentManager.document w3 (Session.document_manager e2) = Some d ∧
        Session.page_count e2 = length d ∧
        Session.last_modified e2 = clock w ∧
        Session.storage_path e2 = Session.storage_path e ∧
        Session.filename e2 = Row.filename row ∧
        Session.created_at e2 = Row.created_at row.
Proof.
  intros He Hrow Hsp Hd Hsave.
  destruct (persist_save_ok sid w e _ He (save_pdf_saved _ _ _ _ Hd Hsave))
    as (d' & w1 & Hd' & Hp & Hfs & _ & Hdb & _).
  rewrite Hd in Hd'. injection Hd' as <-.
  eexists. exists w1. split; [exact Hp |].
  intros w2 Hfs2 Hdb2 Hcold.
  assert (Hrow2 : db w2 !! sid = Some (Row.set_last_modified (clock w) row))
    by (by rewrite Hdb2, Hdb, lookup_alter_eq, Hrow).
  assert (Hfile : fs w2 !! Row.storage_path (Row.set_last_modified (clock w) row)
                  = Some (PdfData d))
    by (simpl; by rewrite Hfs2, Hfs, Hsp, lookup_insert_eq).
  destruct (get_session_hydrate sid w2 _ d Hcold Hrow2 Hfile)
    as (e2 & Hg & _ & Hfn & Hsp2 & Hca & Hlm & Hdm & Hpc).
  exists e2. eexists. split; [exact Hg |]. simpl in *.
  rewrite Hdm. unfold DocumentManager.document. simpl. rewrite lookup_at_end.
  repeat split; try done. congruence.
Qed.

Lemma persist_survives_restart_witness :
  sessions Sample.created !! Sample.sid = Some Sample.entry ∧
  ∃ e1 w1, persist_session_document Sample.sid Sample.created = (Ok e1, w1) ∧
    ∀ w2, fs w2 = fs w1 → db w2 = db w1 → sessions w2 !! Sample.sid = None →
      ∃ e2 w3, get_session Sample.sid w2 = (Ok e2, w3) ∧
        DocumentManager.document w3 (Session.document_manager e2) = Some [1; 2; 3]%nat ∧
        Session.page_count e2 = 3%nat.
Proof.
  assert (H : sessions Sample.created !! Sample.sid = Some Sample.entry)
    by (vm_compute; reflexivity).
  split; [exact H |].
  destruct (persist_survives_restart Sample.sid Sample.created Sample.entry
              (Row.mk "report.pdf" Sample.path 1000 1000) [1; 2; 3]%nat H
              ltac:(vm_compute; reflexivity) ltac:(reflexivity)
              ltac:(vm_compute; reflexivity) ltac:(vm_compute; reflexivity))
    as (e1 & w1 & Hp & Hnext).
  exists e1, w1. split; [exact Hp |].
  intros w2 H1 H2 H3. destruct (Hnext w2 H1 H2 H3) as (e2 & w3 & Hg & Hd & Hpc & _).
  exists e2, w3. split; [exact Hg |]. split; [exact Hd | exact Hpc].
Defined.

(** X16. Persist of a warm session touches nothing but that session: the
    entries and records of other ids, the managers and every file besides
    the storage path and the temporary path are as before. The entry it
    returns keeps id, filename, storage path, creation time, manager and
    helpers of the cached entry; only [last_modified] and [page_count] are
    rewritten (so the helpers stay as they were built even when the page
    count crosses zero). *)
Theorem persist_frame (sid : string) (w : World) (e : Session.t) :
  sessions w !! sid = Some e →
  ∃ r w', persist_session_document sid w = (r, w') ∧
    (∀ k, k ≠ sid → sessions w' !! k = sessions w !! k ∧ db w' !! k = db w !! k) ∧
    (∀ p, p ≠ Session.storage_path e → p ≠ temp_path_of (Session.storage_path e) →
          fs w' !! p = fs w !! p) ∧
    managers w' = managers w ∧
    (∀ e', r = Ok e' →
       Session.id e' = Session.id e ∧ Session.filename e' = Session.filename e ∧
       Session.storage_path e' = Session.storage_path e ∧
       Session.created_at e' = Session.created_at e ∧
       Session.document_manager e' = Session.document_manager e ∧
       Session.editor e' = Session.editor e ∧
       Session.page_manipulator e' = Session.page_manipulator e ∧
       Session.metadata_editor e' = Session.metadata_editor e).
Proof.
  intros He.
  destruct (DocumentManager.save_pdf (Session.document_manager e)
              (temp_path_of (Session.storage_path e)) w) as [[[]|exc] w1] eqn:Hsave.
  - destruct (persist_save_ok sid w e w1 He Hsave)
      as (d & w' & _ & Hp & Hfs & Hs & Hdb & Hman & _).
    eexists. exists w'. split; [exact Hp |]. rewrite Hfs, Hs, Hdb.
    split; [intros k Hk; by rewrite lookup_insert_ne, lookup_alter_ne |].
    split; [intros p Hp1 Hp2; by rewrite lookup_insert_ne, lookup_delete_ne |].
    split; [done |]. by intros e' [= <-].
  - destruct (persist_save_fails sid w e exc w1 He Hsave)
      as (w' & Hp & Hfs & Hs & Hdb & Hman & _).
    eexists. exists w'. split; [exact Hp |]. rewrite Hfs, Hs, Hdb.
    split; [done |].
    split; [intros p Hp1 Hp2; by rewrite lookup_delete_ne |].
    split; [done |]. discriminate.
Qed.

Lemma persist_frame_witness :
  sessions Sample.disk_full !! Sample.sid = Some Sample.entry ∧
  ∃ r w', persist_session_document Sample.sid Sample.disk_full = (r, w') ∧
    managers w' = managers Sample.disk_full.
Proof.
  assert (H : sessions Sample.disk_full !! Sample.sid = Some Sample.entry)
    by (vm_compute; reflexivity).
  split; [exact H |].
  destruct (persist_frame Sample.sid Sample.disk_full Sample.entry H)
    as (r & w' & Hp & _ & _ & Hman & _).
  exists r, w'. split; [exact Hp | exact Hman].
Defined.

(** ** ReapStale: what a sweep leaves, and a second sweep *)

Lemma reap_record_static cutoff n r w :
  let w' := (reap_record cutoff n r w).2 in
  env w' = env w ∧ clock w' = clock w ∧ managers w' = managers w.
Proof.
  unfold reap_record. py_prims.
  destruct (stale cutoff _ r); [| done].
  destruct (fs w !! SessionRecord.storage_path r) as [c|] eqn:Hc; map_steps; [| done].
  by destruct (unlink_refused (env w) (SessionRecord.storage_path r)); map_steps.
Qed.

Lemma reap_loop_static cutoff (l : list SessionRecord.t) :
  ∀ w n, let w' := (for_each l n (reap_record cutoff) w).2 in
         env w' = env w ∧ clock w' = clock w ∧ managers w' = managers w.
Proof.
  induction l as [|r l IH]; intros w n; [done |].
  simpl. unfold bind.
  pose proof (reap_record_static cutoff n r w) as Hstep.
  destruct (reap_record cutoff n r w) as [[n1|exc] w1]; simpl in *.
  - specialize (IH w1 n1). simpl in IH. destruct IH as (-> & -> & ->). done.
  - done.
Qed.

(** The sweep touches neither the clock nor the managers. *)
Lemma cleanup_static (w : World) :
  clock (cleanup_stale_sessions w).2 = clock w ∧
  managers (cleanup_stale_sessions w).2 = managers w.
Proof.
  unfold cleanup_stale_sessions, datetime_now, session_store.list_all, gets, bind.
  match goal with |- context [for_each ?l 0 ?body w] =>
    pose proof (reap_loop_static _ l w 0 : let w' := (for_each l 0 body w).2 in _) as Hstatic;
    destruct (for_each l 0 body w) as [[n1|exc] w1]
  end; simpl in Hstatic; destruct Hstatic as (_ & Hclock & Hman).
  - unfold when, logger_info, modify, ret. by destruct (negb (n1 =? 0)).
  - done.
Qed.

(** X17. A second sweep at the same time finds nothing to do: what a sweep
    leaves in the store is either warm or not older than the cutoff, so
    running the reaper again changes neither the records nor the files. *)
Theorem cleanup_stale_sessions_twice (w : World) :
  ∃ w1 w2, cleanup_stale_sessions w = (Ok tt, w1) ∧
    cleanup_stale_sessions w1 = (Ok tt, w2) ∧
    db w2 = db w1 ∧ fs w2 = fs w1 ∧ sessions w2 = sessions w1 ∧
    (∀ sid row, db w1 !! sid = Some row →
       warm w sid = true ∨ cutoff_of w ≤ Row.last_modified row).
Proof.
  destruct (cleanup_effect w) as (w1 & Hc1 & Hs1 & Henv1 & Hdb1 & Hnone1 & _).
  destruct (cleanup_effect w1) as (w2 & Hc2 & Hs2 & _ & Hdb2 & Hnone2 & Hfs2).
  assert (Hclock1 : clock w1 = clock w).
  { pose proof (cleanup_static w) as [Hcl _]. by rewrite Hc1 in Hcl. }
  assert (Hcut : cutoff_of w1 = cutoff_of w) by (unfold cutoff_of; by rewrite Henv1, Hclock1).
  assert (Hwarm : ∀ k, warm w1 k = warm w k) by (intros k; by apply warm_same_sessions).
  assert (Hleft : ∀ sid row, db w1 !! sid = Some row →
            stale (cutoff_of w) (warm w sid) (Row.to_record sid row) = false).
  { intros sid row Hrow. destruct (db w !! sid) as [row0|] eqn:Hrow0.
    - specialize (Hdb1 sid row0 Hrow0).
      destruct (stale (cutoff_of w) (warm w sid) (Row.to_record sid row0)) eqn:Hst.
      + destruct Hdb1 as (Hgone & _). congruence.
      + rewrite Hdb1 in Hrow. by injection Hrow as <-.
    - rewrite (Hnone1 sid Hrow0) in Hrow. discriminate. }
  exists w1, w2. split; [done |]. split; [done |].
  split; [| split; [| split; [done |]]].
  - apply map_eq. intros sid. destruct (db w1 !! sid) as [row|] eqn:Hrow.
    + specialize (Hdb2 sid row Hrow). rewrite Hcut, Hwarm, (Hleft sid row Hrow) in Hdb2.
      done.
    + by apply Hnone2.
  - apply map_eq. intros p. apply Hfs2. right. intros sid row Hrow Hst.
    rewrite Hcut, Hwarm, (Hleft sid row Hrow) in Hst. discriminate.
  - intros sid row Hrow. specialize (Hleft sid row Hrow). unfold stale in Hleft.
    simpl in Hleft. apply andb_false_iff in Hleft as [Hlt | Hw].
    + right. lia.
    + left. by destruct (warm w sid).
Qed.

(** ** Invariants of cache, store and managers *)

Lemma coherent_create fp fn w : coherent w → coherent (create_session fp fn w).2.
Proof.
  intros Hw.
  destruct (create_session_store_cache fp fn w)
    as [(exc & w' & -> & Hdb & Hs & _) | (e & w' & -> & Hdb & Hs & Hid & _)];
    simpl; intros k e' He'.
  - rewrite Hs in He'. rewrite Hdb. by apply Hw.
  - rewrite Hs in He'. rewrite Hdb.
    destruct (decide (k = next_session_id w)) as [-> | Hne].
    + rewrite lookup_insert_eq in He'. injection He' as <-.
      by rewrite lookup_insert_eq.
    + rewrite lookup_insert_ne in He' by done. rewrite lookup_insert_ne by done.
      by apply Hw.
Qed.

Lemma coherent_get sid w : coherent w → coherent (get_session sid w).2.
Proof.
  intros Hw.
  destruct (get_session_cases sid w)
    as [(e & _ & Hr) | [(_ & _ & Hr) | [(row & d & e & Hs & Hrow & _ & Hr & Hid & Her & _)
                                       | (row & _ & _ & Hr)]]];
    rewrite Hr; simpl.
  - done.
  - done.
  - intros k e' He'. simpl in *. destruct (decide (k = sid)) as [-> | Hne].
    + rewrite lookup_insert_eq in He'. injection He' as <-. by rewrite Her.
    + rewrite lookup_insert_ne in He' by done. by apply Hw.
  - intros k e' He'. simpl in *. by apply Hw.
Qed.

Lemma coherent_delete sid w : coherent w → coherent (delete_session sid w).2.
Proof.
  intros Hw. destruct (sessions w !! sid) as [e|] eqn:He.
  - destruct (delete_session_warm sid w e He) as (w' & -> & Hs & Hdb & _). simpl.
    intros k e' He'. rewrite Hs in He'. rewrite Hdb.
    destruct (decide (k = sid)) as [-> | Hne].
    + by rewrite lookup_delete_eq in He'.
    + rewrite lookup_delete_ne in He' by done. rewrite lookup_delete_ne by done.
      by apply Hw.
  - rewrite (delete_session_cold sid w He). simpl. intros k e' He'. simpl in *.
    destruct (decide (k = sid)) as [-> | Hne]; [congruence |].
    rewrite lookup_delete_ne by done. by apply Hw.
Qed.

Lemma coherent_persist_warm sid w e :
  sessions w !! sid = Some e → coherent w → coherent (persist_session_document sid w).2.
Proof.
  intros He Hw.
  destruct (DocumentManager.save_pdf (Session.document_manager e)
              (temp_path_of (Session.storage_path e)) w) as [[[]|exc] w1] eqn:Hsave.
  - destruct (persist_save_ok sid w e w1 He Hsave)
      as (d & w' & _ & -> & _ & Hs & Hdb & _). simpl.
    intros k e' He'. rewrite Hs in He'. rewrite Hdb.
    destruct (decide (k = sid)) as [-> | Hne].
    + rewrite lookup_insert_eq in He'. injection He' as <-.
      destruct (Hw sid e He) as [Hid Hrow].
      split; [done |]. by rewrite lookup_alter_eq, Hrow.
    + rewrite lookup_insert_ne in He' by done. rewrite lookup_alter_ne by done.
      by apply Hw.
  - destruct (persist_save_fails sid w e exc w1 He Hsave)
      as (w' & -> & _ & Hs & Hdb & _). simpl.
    intros k e' He'. rewrite Hs in He'. rewrite Hdb. by apply Hw.
Qed.

Lemma resolved_is_cached sid w e w1 :
  get_session sid w = (Ok e, w1) → sessions w1 !! sid = Some e.
Proof.
  intros Hg.
  destruct (get_session_cases sid w)
    as [(e0 & He0 & Hr) | [(_ & _ & Hr) | [(row & d & e0 & _ & _ & _ & Hr & _)
                                          | (row & _ & _ & Hr)]]];
    rewrite Hr in Hg; try discriminate; injection Hg as <- <-; simpl.
  - done.
  - apply lookup_insert_eq.
Qed.

Lemma coherent_persist sid w : coherent w → coherent (persist_session_document sid w).2.
Proof.
  intros Hw. pose proof (coherent_get sid w Hw) as Hg.
  destruct (persist_after_resolve sid w) as [Hraise Hok].
  destruct (get_session sid w) as [[e|exc] w1] eqn:Hr; simpl in Hg.
  - rewrite (Hok e w1 eq_refl).
    apply (coherent_persist_warm sid w1 e); [| done].
    by apply (resolved_is_cached sid w).
  - by rewrite (Hraise exc w1 eq_refl).
Qed.

Lemma coherent_cleanup w : coherent w → coherent (cleanup_stale_sessions w).2.
Proof.
  intros Hw.
  destruct (cleanup_effect w) as (w' & -> & Hs & _ & Hdb & _). simpl.
  intros k e He. rewrite Hs in He. destruct (Hw k e He) as [Hid Hrow].
  split; [done |]. specialize (Hdb k _ Hrow).
  assert (Hwarm : warm w k = true).
  { unfold warm. apply bool_decide_eq_true. by rewrite He. }
  rewrite Hwarm in Hdb. unfold stale in Hdb. simpl in Hdb.
  by rewrite andb_false_r in Hdb.
Qed.

(** X18. Cache and store stay in step. If every cached entry is filed
    under its own id and the store holds a record with the same file name,
    storage path, creation time and last-modified time, the same is true
    after a create, a resolve, a delete and a sweep of the reaper (which
    never takes the record of a cached session), whether they return or
    raise, and after a persist that returns (which moves both last-modified
    times together). *)
Theorem lifecycle_keeps_coherent (w : World) :
  coherent w →
  (∀ file_path filename, coherent (create_session file_path filename w).2) ∧
  (∀ sid, coherent (get_session sid w).2) ∧
  (∀ sid, coherent (delete_session sid w).2) ∧
  (∀ sid e w', persist_session_document sid w = (Ok e, w') → coherent w') ∧
  coherent (cleanup_stale_sessions w).2.
Proof.
  intros Hw. split; [| split; [| split; [| split]]].
  - intros fp fn. by apply coherent_create.
  - intros sid. by apply coherent_get.
  - intros sid. by apply coherent_delete.
  - intros sid e w' Hp. pose proof (coherent_persist sid w Hw) as Hc.
    by rewrite Hp in Hc.
  - by apply coherent_cleanup.
Qed.

Lemma lifecycle_keeps_coherent_witness :
  coherent Sample.restarted ∧
  ∃ e w', persist_session_document Sample.sid Sample.restarted = (Ok e, w') ∧
    coherent w' ∧
    sessions w' !! Sample.sid = Some (Session.set_last_modified 5000 Sample.entry).
Proof.
  assert (H : coherent Sample.restarted).
  { intros sid e He. simpl in He. by rewrite lookup_empty in He. }
  split; [exact H |].
  eexists. eexists. split; [vm_compute; reflexivity |]. split.
  - eapply (proj1 (proj2 (proj2 (proj2 (lifecycle_keeps_coherent Sample.restarted H))))
              Sample.sid).
    vm_compute. reflexivity.
  - vm_compute. reflexivity.
Defined.

(** ** One manager per cached session *)

Lemma document_lt w h : is_Some (DocumentManager.document w h) → (h < length (managers w))%nat.
Proof.
  unfold DocumentManager.document. intros [d Hd].
  destruct (managers w !! h) as [o|] eqn:Ho; [by eapply lookup_lt_Some | done].
Qed.

(** Delete touches the manager of the deleted entry and no other. *)
Lemma delete_session_managers sid w h :
  (∀ e, sessions w !! sid = Some e → Session.document_manager e ≠ h) →
  managers (delete_session sid w).2 !! h = managers w !! h.
Proof.
  intros Hh. destruct (sessions w !! sid) as [e|] eqn:He.
  - specialize (Hh e eq_refl). revert Hh.
    unfold delete_session. py_prims. unfold DocumentManager.document.
    destruct e as [eid efn sp h0 ca lm pc ed pm me]. simpl. intros Hh.
    destruct (managers w !! h0) as [[d|]|] eqn:Hd;
      [destruct (DocumentManager.truthy d) eqn:Ht | |];
      (destruct (str_truthy sp) eqn:Hsp; [destruct (fs w !! sp) as [c|] eqn:Hc |]);
      map_steps; try done.
    all: by rewrite list_lookup_insert_ne.
  - by rewrite (delete_session_cold sid w He).
Qed.

Lemma exclusive_create fp fn w : exclusive w → exclusive (create_session fp fn w).2.
Proof.
  intros [Hopen Hinj].
  destruct (create_session_store_cache fp fn w)
    as [(exc & w' & -> & _ & Hs & Hman)
       | (e & w' & -> & _ & Hs & _ & Hdm & d & Hman)]; simpl.
  - split.
    + intros k e Hk. rewrite Hs in Hk. pose proof (Hopen k e Hk) as Ho.
      unfold DocumentManager.document in *. rewrite Hman; [done |].
      by apply document_lt.
    + intros k1 k2 e1 e2 H1 H2. rewrite Hs in H1, H2. by eapply Hinj.
  - assert (Hold : ∀ k e0, sessions w !! k = Some e0 →
               (Session.document_manager e0 < length (managers w))%nat).
    { intros k e0 Hk. apply document_lt. by eapply Hopen. }
    split.
    + intros k e0 Hk. rewrite Hs in Hk. unfold DocumentManager.document. rewrite Hman.
      destruct (decide (k = next_session_id w)) as [-> | Hne].
      * rewrite lookup_insert_eq in Hk. injection Hk as <-.
        rewrite Hdm, lookup_at_end. by eexists.
      * rewrite lookup_insert_ne in Hk by done.
        rewrite lookup_app_l by (by eapply Hold). by eapply Hopen.
    + intros k1 k2 e1 e2 H1 H2 Heq. rewrite Hs in H1, H2.
      destruct (decide (k1 = next_session_id w)) as [-> | Hne1];
        destruct (decide (k2 = next_session_id w)) as [-> | Hne2]; [done | | |].
      * rewrite lookup_insert_eq in H1. injection H1 as <-.
        rewrite lookup_insert_ne in H2 by done.
        pose proof (Hold _ _ H2). lia.
      * rewrite lookup_insert_eq in H2. injection H2 as <-.
        rewrite lookup_insert_ne in H1 by done.
        pose proof (Hold _ _ H1). lia.
      * rewrite lookup_insert_ne in H1, H2 by done. by eapply Hinj.
Qed.

Lemma exclusive_get sid w : exclusive w → exclusive (get_session sid w).2.
Proof.
  intros [Hopen Hinj].
  assert (Hold : ∀ k e0, sessions w !! k = Some e0 →
             (Session.document_manager e0 < length (managers w))%nat).
  { intros k e0 Hk. apply document_lt. by eapply Hopen. }
  destruct (get_session_cases sid w)
    as [(e & _ & Hr) | [(_ & _ & Hr) | [(row & d & e & Hs & Hrow & _ & Hr & Hid & Her & Hdm & _)
                                       | (row & _ & _ & Hr)]]];
    rewrite Hr; simpl.
  - done.
  - done.
  - split.
    + intros k e0 Hk. simpl in Hk.
      destruct (decide (k = sid)) as [-> | Hne].
      * rewrite lookup_insert_eq in Hk. injection Hk as <-.
        rewrite Hdm. unfold DocumentManager.document. simpl.
        rewrite lookup_at_end. by eexists.
      * rewrite lookup_insert_ne in Hk by done.
        unfold DocumentManager.document. simpl.
        rewrite lookup_app_l by (by eapply Hold). by eapply Hopen.
    + intros k1 k2 e1 e2 H1 H2 Heq. simpl in H1, H2.
      destruct (decide (k1 = sid)) as [-> | Hne1];
        destruct (decide (k2 = sid)) as [-> | Hne2]; [done | | |].
      * rewrite lookup_insert_eq in H1. injection H1 as <-.
        rewrite lookup_insert_ne in H2 by done.
        pose proof (Hold _ _ H2). lia.
      * rewrite lookup_insert_eq in H2. injection H2 as <-.
        rewrite lookup_insert_ne in H1 by done.
        pose proof (Hold _ _ H1). lia.
      * rewrite lookup_insert_ne in H1, H2 by done. by eapply Hinj.
  - split.
    + intros k e0 Hk. simpl in Hk. unfold DocumentManager.document. simpl.
      rewrite lookup_app_l by (by eapply Hold). by eapply Hopen.
    + intros k1 k2 e1 e2 H1 H2. simpl in H1, H2. by eapply Hinj.
Qed.

Lemma exclusive_delete sid w : exclusive w → exclusive (delete_session sid w).2.
Proof.
  intros [Hopen Hinj].
  assert (Hs : sessions (delete_session sid w).2 = base.delete sid (sessions w)).
  { destruct (sessions w !! sid) as [e|] eqn:He.
    - by destruct (delete_session_warm sid w e He) as (w' & -> & Hs & _).
    - rewrite (delete_session_cold sid w He). simpl. symmetry. by apply delete_id. }
  split.
  - intros k e Hk. rewrite Hs in Hk.
    destruct (decide (k = sid)) as [-> | Hne]; [by rewrite lookup_delete_eq in Hk |].
    rewrite lookup_delete_ne in Hk by done.
    unfold DocumentManager.document. rewrite delete_session_managers.
    + by eapply Hopen.
    + intros e0 He0 Heq. apply Hne. symmetry. by eapply Hinj.
  - intros k1 k2 e1 e2 H1 H2. rewrite Hs in H1, H2.
    destruct (decide (k1 = sid)) as [-> | Hne1]; [by rewrite lookup_delete_eq in H1 |].
    destruct (decide (k2 = sid)) as [-> | Hne2]; [by rewrite lookup_delete_eq in H2 |].
    rewrite lookup_delete_ne in H1, H2 by done. by eapply Hinj.
Qed.

Lemma exclusive_persist_warm sid w e :
  sessions w !! sid = Some e → exclusive w → exclusive (persist_session_document sid w).2.
Proof.
  intros He [Hopen Hinj].
  destruct (DocumentManager.save_pdf (Session.document_manager e)
              (temp_path_of (Session.storage_path e)) w) as [[[]|exc] w1] eqn:Hsave.
  - destruct (persist_save_ok sid w e w1 He Hsave)
      as (d & w' & _ & -> & _ & Hs & _ & Hman & _). simpl.
    split.
    + intros k e0 Hk. rewrite Hs in Hk. unfold DocumentManager.document. rewrite Hman.
      destruct (decide (k = sid)) as [-> | Hne].
      * rewrite lookup_insert_eq in Hk. injection Hk as <-. simpl. by eapply Hopen.
      * rewrite lookup_insert_ne in Hk by done. by eapply Hopen.
    + intros k1 k2 e1 e2 H1 H2 Heq. rewrite Hs in H1, H2.
      destruct (decide (k1 = sid)) as [-> | Hne1];
        destruct (decide (k2 = sid)) as [-> | Hne2]; [done | | |].
      * rewrite lookup_insert_eq in H1. injection H1 as <-.
        rewrite lookup_insert_ne in H2 by done. by eapply Hinj.
      * rewrite lookup_insert_eq in H2. injection H2 as <-.
        rewrite lookup_insert_ne in H1 by done. by eapply Hinj.
      * rewrite lookup_insert_ne in H1, H2 by done. by eapply Hinj.
  - destruct (persist_save_fails sid w e exc w1 He Hsave)
      as (w' & -> & _ & Hs & _ & Hman & _). simpl.
    split.
    + intros k e0 Hk. rewrite Hs in Hk. unfold DocumentManager.document. rewrite Hman.
      by eapply Hopen.
    + intros k1 k2 e1 e2 H1 H2. rewrite Hs in H1, H2. by eapply Hinj.
Qed.

Lemma exclusive_persist sid w : exclusive w → exclusive (persist_session_document sid w).2.
Proof.
  intros Hw. pose proof (exclusive_get sid w Hw) as Hg.
  destruct (persist_after_resolve sid w) as [Hraise Hok].
  destruct (get_session sid w) as [[e|exc] w1] eqn:Hr; simpl in Hg.
  - rewrite (Hok e w1 eq_refl).
    apply (exclusive_persist_warm sid w1 e); [| done].
    by apply (resolved_is_cached sid w).
  - by rewrite (Hraise exc w1 eq_refl).
Qed.

Lemma exclusive_cleanup w : exclusive w → exclusive (cleanup_stale_sessions w).2.
Proof.
  intros [Hopen Hinj].
  pose proof (cleanup_static w) as [_ Hman].
  destruct (cleanup_effect w) as (w' & Hc & Hs & _). rewrite Hc in Hman |- *.
  simpl in Hman |- *.
  split.
  - intros k e Hk. rewrite Hs in Hk. unfold DocumentManager.document. rewrite Hman.
    by eapply Hopen.
  - intros k1 k2 e1 e2 H1 H2. rewrite Hs in H1, H2. by eapply Hinj.
Qed.

(** X19. No two cached sessions share a document manager, and every cached
    session has a document loaded in its manager. If this holds before a
    create, a resolve, a delete, a persist or a sweep of the reaper, it
    holds after it, whether the call succeeds or raises: in particular,
    deleting one session never closes the document of another. *)
Theorem lifecycle_keeps_exclusive (w : World) :
  exclusive w →
  (∀ file_path filename, exclusive (create_session file_path filename w).2) ∧
  (∀ sid, exclusive (get_session sid w).2) ∧
  (∀ sid, exclusive (delete_session sid w).2) ∧
  (∀ sid, exclusive (persist_session_document sid w).2) ∧
  exclusive (cleanup_stale_sessions w).2.
Proof.
  intros Hw. split; [| split; [| split; [| split]]].
  - intros fp fn. by apply exclusive_create.
  - intros sid. by apply exclusive_get.
  - intros sid. by apply exclusive_delete.
  - intros sid. by apply exclusive_persist.
  - by apply exclusive_cleanup.
Qed.

Lemma lifecycle_keeps_exclusive_witness :
  exclusive Sample.fresh ∧
  exclusive (create_session Sample.upload "docs/report.pdf" Sample.fresh).2 ∧
  sessions (create_session Sample.upload "docs/report.pdf" Sample.fresh).2 !! Sample.sid
    = Some Sample.entry.
Proof.
  assert (H : exclusive Sample.fresh).
  { split.
    - intros sid e He. simpl in He. by rewrite lookup_empty in He.
    - intros k1 k2 e1 e2 He. simpl in He. by rewrite lookup_empty in He. }
  split; [exact H |]. split.
  - exact (proj1 (lifecycle_keeps_exclusive Sample.fresh H) Sample.upload "docs/report.pdf").
  - vm_compute. reflexivity.
Defined.

(** ** How the operations compose *)


(** X21. Resolve after a sweep of the reaper. A session that was cached
    resolves to the same entry as before the sweep, however old it is. A
    session that was only in the store and whose record was older than the
    time-to-live is unknown afterwards: Resolve raises the 404 and does not
    touch the state. *)
Theorem cleanup_then_resolve (w : World) :
  ∃ w', cleanup_stale_sessions w = (Ok tt, w') ∧
    (∀ sid e, sessions w !! sid = Some e → get_session sid w' = (Ok e, w')) ∧
    (∀ sid row, sessions w !! sid = None → db w !! sid = Some row →
       Row.last_modified row < cutoff_of w →
       get_session sid w' = (Raise not_found, w')).
Proof.
  destruct (cleanup_effect w) as (w' & Hc & Hs & _ & Hdb & _).
  exists w'. split; [done |]. split.
  - intros sid e He. apply get_session_cached. by rewrite Hs.
  - intros sid row He Hrow Hold. apply get_session_missing; [by rewrite Hs |].
    specialize (Hdb sid row Hrow).
    assert (Hst : stale (cutoff_of w) (warm w sid) (Row.to_record sid row) = true).
    { unfold stale, warm. simpl. apply andb_true_iff. split; [lia |].
      rewrite bool_decide_eq_false_2; [done |]. rewrite He. by intros [? ?]. }
    rewrite Hst in Hdb. by destruct Hdb as (? & _).
Qed.




(** X23. [sanitize_filename] returns the part of a name after its last
    separator: for a name [h/t] in which [t] holds no separator the result
    is [t], whatever [h] is (a directory, [..] steps, an absolute path), a
    name that ends in a separator is sanitized to the empty name, and
    sanitizing the result again changes nothing. *)
Theorem sanitize_filename_last_component (h t : string) :
  Str.no_sep t →
  sanitize_filename (h +:+ "/" +:+ t) = t ∧
  sanitize_filename (h +:+ "/") = "" ∧
  sanitize_filename (sanitize_filename (h +:+ "/" +:+ t)) = t.
Proof.
  intros Ht. unfold sanitize_filename. split; [by apply basename_last_component |]. split.
  - change (h +:+ "/") with (h +:+ "/" +:+ "").
    apply basename_last_component. apply not_elem_of_nil.
  - rewrite (basename_last_component h t Ht). by apply basename_id.
Qed.

Lemma sanitize_filename_last_component_witness :
  Str.no_sep "passwd" ∧ sanitize_filename ("../../etc" +:+ "/" +:+ "passwd") = "passwd".
Proof.
  assert (H : Str.no_sep "passwd").
  { apply (@bool_decide_unpack (Str.sep ∉ Str.chars "passwd") _). vm_compute. exact I. }
  split; [exact H |].
  exact (proj1 (sanitize_filename_last_component "../../etc" "passwd" H)).
Defined.

(** ** The handlers of [api/routes/documents.py] *)

(** The body of the upload handler once the size check has passed and the
    temp file is written. *)
Lemma upload_document_body (h : Host) (file : UploadFile.t) (w : World) :
  UploadFile.size file ≤ MAX_UPLOAD_MB h * 1024 * 1024 →
  write_refused h (routes.upload_temp_path h file) = false →
  routes.upload_document h file w =
    match create_session (routes.upload_temp_path h file) (UploadFile.filename file)
            (set_fs <[routes.upload_temp_path h file := UploadFile.content file]> w) with
    | (Ok session_id, w1) =>
        match sessions w1 !! session_id with
        | Some session =>
            (Ok (APIResponse true
                   (Some (SessionDict (routes.document_session session_id session)))
                   None (Some "Document uploaded successfully")), w1)
        | None => (Raise (HTTPException 500 (exn_str h (KeyError session_id))), w1)
        end
    | (Raise e, w1) => (Raise (HTTPException 500 (exn_str h e)), w1)
    end.
Proof.
  intros Hsize Hwrite.
  unfold routes.upload_document, try_except, open_write, sessions_getitem, when,
    bind, ret, raise.
  replace (MAX_UPLOAD_MB h * 1024 * 1024 <? UploadFile.size file) with false
    by (symmetry; apply Z.ltb_ge; lia).
  rewrite Hwrite.
  destruct (create_session _ _ _) as [[session_id|e] w1]; [| done].
  by destruct (sessions w1 !! session_id).
Qed.


Example upload_too_large :
  routes.upload_document Upload.host Upload.too_large Upload.idle
    = (Raise (HTTPException 500 "error"), Upload.idle).
Proof. reflexivity. Qed.

(** What a successful upload went through. *)
Lemma upload_document_inv_ok (h : Host) (file : UploadFile.t) (w : World) resp w1 :
  routes.upload_document h file w = (Ok resp, w1) →
  UploadFile.size file ≤ MAX_UPLOAD_MB h * 1024 * 1024 ∧
  write_refused h (routes.upload_temp_path h file) = false ∧
  ∃ session_id session,
    create_session (routes.upload_temp_path h file) (UploadFile.filename file)
      (set_fs <[routes.upload_temp_path h file := UploadFile.content file]> w)
      = (Ok session_id, w1) ∧
    sessions w1 !! session_id = Some session ∧
    resp = APIResponse true
             (Some (SessionDict (routes.document_session session_id session)))
             None (Some "Document uploaded successfully").
Proof.
  intros Hup.
  destruct (Z.ltb_spec (MAX_UPLOAD_MB h * 1024 * 1024) (UploadFile.size file)) as [Hbig | Hsize].
  { revert Hup. unfold routes.upload_document, try_except, when, bind, raise.
    replace (MAX_UPLOAD_MB h * 1024 * 1024 <? UploadFile.size file) with true
      by (symmetry; apply Z.ltb_lt; lia).
    discriminate. }
  destruct (write_refused h (routes.upload_temp_path h file)) eqn:Hwrite.
  { revert Hup.
    unfold routes.upload_document, try_except, open_write, when, bind, ret, raise.
    replace (MAX_UPLOAD_MB h * 1024 * 1024 <? UploadFile.size file) with false
      by (symmetry; apply Z.ltb_ge; lia).
    rewrite Hwrite. discriminate. }
  split; [done |]. split; [done |].
  rewrite (upload_document_body h file w Hsize Hwrite) in Hup.
  destruct (create_session _ _ _) as [[session_id|e] w2]; [| discriminate].
  destruct (sessions w2 !! session_id) as [session|] eqn:Hs; [| discriminate].
  injection Hup as <- <-. by exists session_id, session.
Qed.

(** X25. A successful upload and the two read handlers. When the upload
    handler returns, the uploaded content was a PDF; the response carries
    the drawn session id, the sanitized file name, the number of pages of
    the upload and the time of the upload as both timestamps; the temp file
    is gone, the content file is in the storage directory, and the
    document-info and page-count handlers answer for that id with the same
    data, without changing anything. *)
Theorem upload_then_info (h : Host) (file : UploadFile.t) (w w1 : World) (resp : Response) :
  routes.upload_document h file w = (Ok resp, w1) →
  ∃ d doc_session,
    UploadFile.content file = PdfData d ∧
    resp = APIResponse true (Some (SessionDict doc_session)) None
             (Some "Document uploaded successfully") ∧
    doc_session = DocumentSession.mk (next_session_id w)
                    (sanitize_filename (UploadFile.filename file)) (length d) 0
                    (clock w) (clock w) ∧
    fs w1 !! routes.upload_temp_path h file = None ∧
    fs w1 !! next_storage_path w (UploadFile.filename file) = Some (PdfData d) ∧
    routes.get_document_info (next_session_id w) w1
      = (Ok (APIResponse true (Some (SessionDict doc_session)) None None), w1) ∧
    routes.get_page_count (next_session_id w) w1
      = (Ok (APIResponse true (Some (PageCountDict (length d))) None None), w1).
Proof.
  intros Hup.
  destruct (upload_document_inv_ok h file w resp w1 Hup)
    as (_ & _ & sid & e & Hc & He & ->).
  set (tp := routes.upload_temp_path h file) in *.
  set (w0 := set_fs <[tp := UploadFile.content file]> w) in *.
  destruct (create_session_inv_ok tp (UploadFile.filename file) w0 sid w1 Hc)
    as (d & Hsrc & Hne & Hacc & Hins & ->).
  destruct (create_session_ok tp (UploadFile.filename file) w0 (PdfData d)
              Hsrc Hne Hacc d eq_refl Hins)
    as (e' & w' & Hc' & Hfs & _ & Hs & _ & _ & _ & Hfn & _ & Hca & Hlm & _ & Hpc & _).
  rewrite Hc' in Hc. injection Hc as <-.
  rewrite Hs, lookup_insert_eq in He. injection He as <-.
  change (next_session_id w0) with (next_session_id w) in *.
  change (next_storage_path w0 (UploadFile.filename file))
    with (next_storage_path w (UploadFile.filename file)) in *.
  change (clock w0) with (clock w) in *.
  assert (Hcontent : UploadFile.content file = PdfData d).
  { unfold w0 in Hsrc. simpl in Hsrc. rewrite lookup_insert_eq in Hsrc. congruence. }
  assert (Hcached : sessions w' !! next_session_id w = Some e')
    by (rewrite Hs; apply lookup_insert_eq).
  assert (Hds : routes.document_session (next_session_id w) e'
                = DocumentSession.mk (next_session_id w)
                    (sanitize_filename (UploadFile.filename file)) (length d) 0
                    (clock w) (clock w)).
  { unfold routes.document_session. by rewrite Hfn, Hpc, Hca, Hlm. }
  exists d, (routes.document_session (next_session_id w) e').
  split; [done |]. split; [done |]. split; [done |].
  split; [| split; [| split]].
  - rewrite Hfs. apply lookup_delete_eq.
  - rewrite Hfs. rewrite lookup_delete_ne by done. apply lookup_insert_eq.
  - unfold routes.get_document_info, bind, ret.
    by rewrite (get_session_cached _ _ _ Hcached).
  - unfold routes.get_page_count, bind, ret.
    by rewrite (get_session_cached _ _ _ Hcached), Hpc.
Qed.

Lemma upload_then_info_witness :
  routes.upload_document Upload.host Upload.report Upload.idle
    = (Ok Upload.answer, Upload.served) ∧
  ∃ d : Document, routes.get_page_count (next_session_id Upload.idle) Upload.served
         = (Ok (APIResponse true (Some (PageCountDict (length d))) None None),
            Upload.served).
Proof.
  assert (H : routes.upload_document Upload.host Upload.report Upload.idle
              = (Ok Upload.answer, Upload.served)) by (vm_compute; reflexivity).
  split; [exact H |].
  destruct (upload_then_info Upload.host Upload.report Upload.idle Upload.served
              Upload.answer H) as (d & ds & _ & _ & _ & _ & _ & _ & Hpc).
  exists d. exact Hpc.
Defined.

(** Create does not touch the environment. *)
Lemma create_session_ok_env fp fn w sid w' :
  create_session fp fn w = (Ok sid, w') → env w' = env w ∧ clock w' = clock w.
Proof.
  intros Hc.
  destruct (create_session_inv_ok fp fn w sid w' Hc) as (d & Hsrc & Hne & Hacc & Hins & ->).
  revert Hc. unfold create_session. py_prims. simpl.
  fold (next_session_id w). fold (next_storage_path w fn).
  rewrite Hsrc, bool_decide_eq_false_2, Hacc by done.
  match goal with |- context [build_session_data ?a ?b ?c ?x ?y ?w1] =>
    destruct (build_session_data_ok a b c x y w1 d) as (e & -> & _)
  end; [simpl; by rewrite lookup_insert_eq |].
  simpl. rewrite Hins. map_steps. by intros [= <-].
Qed.

(** X26. Upload, then download. After a successful upload of a PDF, the
    download handler (when the save of the document goes through) answers
    with the storage path of the session and the sanitized file name, and
    the file at that path holds the document that was uploaded; the
    session stays cached and no temp file of the save is left. *)
Theorem upload_download_round_trip (h : Host) (file : UploadFile.t) (w w1 : World)
    (resp : Response) (d : Document) :
  routes.upload_document h file w = (Ok resp, w1) →
  UploadFile.content file = PdfData d →
  save_outcome (env w) d
    (temp_path_of (next_storage_path w (UploadFile.filename file))) = Saved →
  ∃ w2, routes.download_document (next_session_id w) w1
          = (Ok (FileResponse (next_storage_path w (UploadFile.filename file))
                   (sanitize_filename (UploadFile.filename file)) "application/pdf"), w2) ∧
    fs w2 !! next_storage_path w (UploadFile.filename file) = Some (PdfData d) ∧
    fs w2 !! temp_path_of (next_storage_path w (UploadFile.filename file)) = None ∧
    is_Some (sessions w2 !! next_session_id w).
Proof.
  intros Hup Hcontent Hsave.
  destruct (upload_document_inv_ok h file w resp w1 Hup)
    as (_ & _ & sid & e & Hc & He & ->).
  set (tp := routes.upload_temp_path h file) in *.
  set (w0 := set_fs <[tp := UploadFile.content file]> w) in *.
  destruct (create_session_inv_ok tp (UploadFile.filename file) w0 sid w1 Hc)
    as (d' & Hsrc & Hne & Hacc & Hins & ->).
  assert (d' = d) as ->.
  { unfold w0 in Hsrc. simpl in Hsrc. rewrite lookup_insert_eq in Hsrc. congruence. }
  destruct (create_session_ok tp (UploadFile.filename file) w0 (PdfData d)
              Hsrc Hne Hacc d eq_refl Hins)
    as (e' & w' & Hc' & _ & _ & Hs & Hman & _ & _ & Hfn & Hsp & _ & _ & Hdm & _).
  rewrite Hc' in Hc. injection Hc as <-.
  rewrite Hs, lookup_insert_eq in He. injection He as <-.
  change (next_session_id w0) with (next_session_id w) in *.
  change (next_storage_path w0 (UploadFile.filename file))
    with (next_storage_path w (UploadFile.filename file)) in *.
  assert (Hcached : sessions w' !! next_session_id w = Some e')
    by (rewrite Hs; apply lookup_insert_eq).
  assert (Hdoc : DocumentManager.document w' (Session.document_manager e') = Some d).
  { unfold DocumentManager.document. by rewrite Hman, Hdm, lookup_at_end. }
  assert (Henv : env w' = env w).
  { by destruct (create_session_ok_env tp (UploadFile.filename file) w0 _ w' Hc'). }
  assert (Hsv : save_outcome (env w') d (temp_path_of (Session.storage_path e')) = Saved)
    by (by rewrite Henv, Hsp).
  pose proof (save_pdf_saved (Session.document_manager e')
                (temp_path_of (Session.storage_path e')) w' d Hdoc Hsv) as Hsaved.
  destruct (persist_save_ok (next_session_id w) w' e' _ Hcached Hsaved)
    as (d2 & w2 & Hd2 & Hp & Hfs2 & Hs2 & _).
  rewrite Hdoc in Hd2. injection Hd2 as <-.
  exists w2. unfold routes.download_document, bind, ret. rewrite Hp. simpl.
  rewrite Hsp, Hfn. split; [done |]. rewrite Hfs2, Hs2, Hsp.
  split; [apply lookup_insert_eq |]. split.
  - rewrite lookup_insert_ne by (apply not_eq_sym, temp_path_ne). apply lookup_delete_eq.
  - rewrite lookup_insert_eq. by eexists.
Qed.

Lemma upload_download_round_trip_witness :
  routes.upload_document Upload.host Upload.report Upload.idle
    = (Ok Upload.answer, Upload.served) ∧
  ∃ w2, routes.download_document (next_session_id Upload.idle) Upload.served
          = (Ok (FileResponse (next_storage_path Upload.idle "report.pdf")
                   (sanitize_filename "report.pdf") "application/pdf"), w2) ∧
    fs w2 !! next_storage_path Upload.idle "report.pdf" = Some (PdfData [1; 2; 3]%nat).
Proof.
  assert (H : routes.upload_document Upload.host Upload.report Upload.idle
              = (Ok Upload.answer, Upload.served)) by (vm_compute; reflexivity).
  split; [exact H |].
  destruct (upload_download_round_trip Upload.host Upload.report Upload.idle
              Upload.served Upload.answer [1; 2; 3]%nat H eq_refl eq_refl)
    as (w2 & Hd & Hfs & _).
  exists w2. split; [exact Hd | exact Hfs].
Defined.

